(** * TOMGROSIM phenology on PCSE: a shallow embedding of [phenology.py]

    The development embeds the class [DVS_Phenology] of [src/phenology.py]:
    the two rate helpers, [calc_rates], [integrate] and the crop-finish
    handler.  Python floats are idealised as real numbers, Python integers
    are [Z], a date is its proleptic ordinal, [None] is [None], a Python
    exception is a value of [exn], and a method is an action of a state and
    exception monad over the simulation object: an exception leaves behind
    every mutation done before it was raised, as in Python.

    Nested lists are modelled as values: the rows of [DOEL] and [DOEF] are
    taken to be distinct list objects.

    The module [Respiration] embeds the [__call__] of
    [TOMGROSIM_Maintenance_Respiration] of [src/respiration.py] in the same
    way. *)

From Stdlib Require Import Reals Lra Lia ZArith.
From stdpp Require Import base list gmap strings.

(** ** Exceptions and results *)

Inductive exn : Type :=
| TypeError
| ValueError
| IndexError.

Inductive result (A : Type) : Type :=
| Ok (a : A)
| Raise (e : exn).

Arguments Ok {A} a.
Arguments Raise {A} e.

Definition rbind {A B} (r : result A) (k : A → result B) : result B :=
  match r with
  | Ok a => k a
  | Raise e => Raise e
  end.

Notation "'let?' x ':=' r 'in' k" := (rbind r (fun x => k))
  (at level 10, x name, r at level 100, k at level 200).

(** ** Numbers *)

(** [int(x)] on a float: truncation towards zero. *)
Definition py_int (x : R) : Z :=
  if Rle_dec 0 x then Zfloor x else Zceil x.

(** [x % y] on floats, for a positive divisor: the result has the sign of
    the divisor.  The program only evaluates [s.DVS % 1]. *)
Definition py_mod (x y : R) : R := (x - y * IZR (Zfloor (x / y)))%R.

(** [math.log]: a domain error outside the positive reals. *)
Definition math_log (x : R) : result R :=
  if Rlt_dec 0 x then Ok (ln x) else Raise ValueError.

(** [range(a, b)] *)
Definition py_range (a b : Z) : list Z :=
  (λ k : nat, (a + Z.of_nat k)%Z) <$> seq 0 (Z.to_nat (b - a)).

(** ** Subscripts

    A subscript expression evaluates to an integer or to a float; a list
    accepts only the former ([list indices must be integers or slices, not
    float]), counts a negative one from the end, and raises [IndexError]
    out of range. *)

Inductive pyidx : Type :=
| IInt (z : Z)
| IFloat (x : R).

Definition norm_index (len : nat) (i : pyidx) : result nat :=
  match i with
  | IFloat _ => Raise TypeError
  | IInt z =>
      if bool_decide (0 ≤ z < Z.of_nat len)%Z then Ok (Z.to_nat z)
      else if bool_decide (- Z.of_nat len ≤ z < 0)%Z then Ok (Z.to_nat (Z.of_nat len + z))
      else Raise IndexError
  end.

(** [l[i]] *)
Definition subscript {A} (l : list A) (i : pyidx) : result A :=
  let? k := norm_index (length l) i in
  match l !! k with
  | Some a => Ok a
  | None => Raise IndexError
  end.

(** [l[i] = v] *)
Definition store_subscript {A} (l : list A) (i : pyidx) (v : A) : result (list A) :=
  let? k := norm_index (length l) i in Ok (<[k := v]> l).

(** [l[i][j]] *)
Definition subscript2 {A} (l : list (list A)) (i j : pyidx) : result A :=
  let? row := subscript l i in subscript row j.

(** [l[i][j] = v]: the row object [l[i]] is updated in place. *)
Definition store_subscript2 {A} (l : list (list A)) (i j : pyidx) (v : A)
  : result (list (list A)) :=
  let? row := subscript l i in
  let? row' := store_subscript row j v in
  store_subscript l i row'.

(** ** The simulation object *)

Definition date : Type := Z.
Bind Scope Z_scope with date.

Record StateVariables : Type := mkStates {
  DVS : R;
  DVSF : list (list R);
  DOEL : list (list (option date));
  DOEF : list (list (option date));
  DOHF : list (list (option date))
}.

(** The rate variables are created as [None] by [initialize]. *)
Record RateVariables : Type := mkRates {
  DVR : option R;
  DVRF : option (list (list R))
}.

Record DVS_Phenology : Type := mkObject {
  states : StateVariables;
  rates : RateVariables;
  _for_finalize : gmap string date
}.

Definition set_DVS (x : R) (s : StateVariables) : StateVariables :=
  mkStates x (DVSF s) (DOEL s) (DOEF s) (DOHF s).
Definition set_DVSF (x : list (list R)) (s : StateVariables) : StateVariables :=
  mkStates (DVS s) x (DOEL s) (DOEF s) (DOHF s).
Definition set_DOEL (x : list (list (option date))) (s : StateVariables) : StateVariables :=
  mkStates (DVS s) (DVSF s) x (DOEF s) (DOHF s).
Definition set_DOEF (x : list (list (option date))) (s : StateVariables) : StateVariables :=
  mkStates (DVS s) (DVSF s) (DOEL s) x (DOHF s).

Definition set_DVR (x : option R) (r : RateVariables) : RateVariables :=
  mkRates x (DVRF r).
Definition set_DVRF (x : option (list (list R))) (r : RateVariables) : RateVariables :=
  mkRates (DVR r) x.

(** [l[i][j]] for in-range natural indices, as an option. *)
Definition cell {A} (l : list (list A)) (i j : nat) : option A :=
  match l !! i with
  | Some row => row !! j
  | None => None
  end.

(** ** The monad of methods *)

Definition M (A : Type) : Type := DVS_Phenology → DVS_Phenology * result A.

Definition ret {A} (a : A) : M A := λ o, (o, Ok a).

Definition bind {A B} (m : M A) (k : A → M B) : M B :=
  λ o, match m o with
       | (o', Ok a) => k a o'
       | (o', Raise e) => (o', Raise e)
       end.

Definition lift {A} (r : result A) : M A := λ o, (o, r).

Notation "'let*' x ':=' m 'in' k" := (bind m (fun x => k))
  (at level 10, x name, m at level 100, k at level 200).
Notation "m1 '>>' m2" := (bind m1 (fun _ => m2))
  (at level 100, m2 at level 200, right associativity).

Definition get_states : M StateVariables := λ o, (o, Ok (states o)).
Definition get_rates : M RateVariables := λ o, (o, Ok (rates o)).
Definition modify_states (f : StateVariables → StateVariables) : M unit :=
  λ o, (mkObject (f (states o)) (rates o) (_for_finalize o), Ok tt).
Definition modify_rates (f : RateVariables → RateVariables) : M unit :=
  λ o, (mkObject (states o) (f (rates o)) (_for_finalize o), Ok tt).
Definition modify_for_finalize (f : gmap string date → gmap string date) : M unit :=
  λ o, (mkObject (states o) (rates o) (f (_for_finalize o)), Ok tt).

Definition when (b : bool) (m : M unit) : M unit := if b then m else ret tt.

(** [for x in xs: body] *)
Fixpoint for_in {A} (xs : list A) (body : A → M unit) : M unit :=
  match xs with
  | [] => ret tt
  | x :: xs' => body x >> for_in xs' body
  end.

(** A loop whose body may [break]: the body answers [true] when it does. *)
Fixpoint for_in_break {A} (xs : list A) (body : A → M bool) : M unit :=
  match xs with
  | [] => ret tt
  | x :: xs' => let* stop := body x in if stop then ret tt else for_in_break xs' body
  end.

(** ** Calling a function

    A [def] has a parameter list; a call binds the arguments to it by
    position and raises [TypeError] when the counts differ.  A call through
    an attribute of the instance, [self.f(a, b)], passes the instance as the
    first argument. *)

Inductive pyval : Type :=
| VFloat (x : R)
| VInstance.

Record pydef : Type := mkDef {
  params : list string;
  body : list pyval → result pyval
}.

Definition call (f : pydef) (args : list pyval) : result pyval :=
  if bool_decide (length args = length (params f)) then body f args
  else Raise TypeError.

Definition call_method (f : pydef) (args : list pyval) : result pyval :=
  call f (VInstance :: args).

Definition as_float (v : pyval) : result R :=
  match v with
  | VFloat x => Ok x
  | VInstance => Raise TypeError
  end.

(** ** The rate helpers *)

(** The body of [_dev_rate_plant], on floats. *)
Definition _dev_rate_plant (drvTEMP sDVS : R) : result R :=
  let? l := math_log drvTEMP in
  Ok (-0.286 + 0.1454 * l - 0.001 * sDVS)%R.

(** The body of [_dev_rate_fruit], on floats. *)
Definition _dev_rate_fruit (drvTEMP sDVSF : R) : result R :=
  let? l := math_log (drvTEMP / 20) in
  Ok (0.0181 + l * (0.0392 - 0.213 * sDVSF + 0.415 * sDVSF ^ 2 - 0.24 * sDVSF ^ 3))%R.

(** [def _dev_rate_plant(drvTEMP, sDVS)]: two parameters, no [self]. *)
Definition def_dev_rate_plant : pydef :=
  mkDef ["drvTEMP"; "sDVS"]
    (λ args, match args with
             | [VFloat t; VFloat d] => let? x := _dev_rate_plant t d in Ok (VFloat x)
             | _ => Raise TypeError
             end).

(** [def _dev_rate_fruit(drvTEMP, sDVSF)]: two parameters, no [self]. *)
Definition def_dev_rate_fruit : pydef :=
  mkDef ["drvTEMP"; "sDVSF"]
    (λ args, match args with
             | [VFloat t; VFloat d] => let? x := _dev_rate_fruit t d in Ok (VFloat x)
             | _ => Raise TypeError
             end).

(** [list(map(f, row))], left to right, stopping at the first exception. *)
Fixpoint map_result {A B} (f : A → result B) (l : list A) : result (list B) :=
  match l with
  | [] => Ok []
  | a :: l' => let? b := f a in let? bs := map_result f l' in Ok (b :: bs)
  end.

(** ** [calc_rates] *)

Definition calc_rates (day : date) (drvTEMP : R) : M unit :=
  let* s := get_states in
  (* r.DVR = self._dev_rate_plant(drv.TEMP, s.DVS) *)
  let* v := lift (call_method def_dev_rate_plant [VFloat drvTEMP; VFloat (DVS s)]) in
  let* x := lift (as_float v) in
  modify_rates (set_DVR (Some x)) >>
  (* r.DVRF = [list(map(lambda x: self._dev_rate_fruit(drv.TEMP, x), row))
               for row in s.DVSF] *)
  let* rows := lift (map_result
                       (map_result (λ x, let? v := call_method def_dev_rate_fruit
                                                     [VFloat drvTEMP; VFloat x] in
                                         as_float v))
                       (DVSF s)) in
  modify_rates (set_DVRF (Some rows)).

(** ** [integrate] *)

Definition unset (x : option date) : bool :=
  match x with None => true | Some _ => false end.

(** [s.DOEF[i][j]], [s.DOEF[i][j] = v] and [len(s.DOEF[i])] *)
Definition read_DOEF (i j : pyidx) : M (option date) :=
  let* s := get_states in lift (subscript2 (DOEF s) i j).
Definition assign_DOEF (i j : pyidx) (v : option date) : M unit :=
  let* s := get_states in
  let* l := lift (store_subscript2 (DOEF s) i j v) in
  modify_states (set_DOEF l).
Definition len_DOEF (i : pyidx) : M Z :=
  let* s := get_states in
  let* row := lift (subscript (DOEF s) i) in
  ret (Z.of_nat (length row)).

(** [s.DOEL[i][j]] and [s.DOEL[i][j] = v] *)
Definition read_DOEL (i j : pyidx) : M (option date) :=
  let* s := get_states in lift (subscript2 (DOEL s) i j).
Definition assign_DOEL (i j : pyidx) (v : option date) : M unit :=
  let* s := get_states in
  let* l := lift (store_subscript2 (DOEL s) i j v) in
  modify_states (set_DOEL l).

(** The right operand of [s.DVS += r.DVR] and the third argument of [map]:
    a rate variable that is still [None] raises [TypeError]. *)
Definition float_operand (x : option R) : result R :=
  match x with Some v => Ok v | None => Raise TypeError end.
Definition iterable {A} (x : option (list A)) : result (list A) :=
  match x with Some l => Ok l | None => Raise TypeError end.

(** [[sum(x) for x in zip(l1, l2)]]: [sum] starts from [0]. *)
Definition zip_sum (l1 l2 : list R) : list R :=
  zip_with (λ a b, 0 + a + b)%R l1 l2.

(** Lines 102-103: the commit of the rates. *)
Definition commit_rates : M unit :=
  let* r := get_rates in
  let* s := get_states in
  let* dvr := lift (float_operand (DVR r)) in
  modify_states (set_DVS (DVS s + dvr)%R) >>
  let* s := get_states in
  let* dvrf := lift (iterable (DVRF r)) in
  modify_states (set_DVSF (zip_with zip_sum (DVSF s) dvrf)).

(** The body of the loop of lines 116-129, for truss [i]. *)
Definition truss_step (day : date) (i : Z) : M unit :=
  let* x := read_DOEF (IInt i) (IInt 0) in
  if negb (unset x) then
    let* n := len_DOEF (IInt i) in
    for_in_break (py_range 1 n) (λ j,
      let* y := read_DOEF (IInt i) (IInt j) in
      if negb (unset y) then ret false
      else assign_DOEF (IInt i) (IInt j) (Some day) >> ret true)
  else
    assign_DOEF (IInt i) (IInt 0) (Some day) >>
    let* z := read_DOEL (IInt (i + 3)) (IInt 0) in
    when (unset z) (assign_DOEL (IInt (i + 3)) (IInt 0) (Some day)).

(** Lines 116-129. *)
Definition anthesis (day : date) : M unit :=
  let* s := get_states in
  for_in (py_range 0 (py_int (DVS s))) (truss_step day).

(** Lines 131-136. *)
Definition nLEAF_of (dvs : R) : Z :=
  if Rle_dec (2 / 3) (py_mod dvs 1) then 3
  else if Rle_dec (1 / 3) (py_mod dvs 1) then 2
  else 1.

(** Lines 137-140: every slot of the units below [int(DVS + 2)]. *)
Definition backfill (day : date) : M unit :=
  let* s := get_states in
  for_in (py_range 0 (py_int (DVS s + 2))) (λ i,
    for_in (py_range 0 3) (λ j,
      let* x := read_DOEL (IInt i) (IInt j) in
      when (unset x) (assign_DOEL (IInt i) (IInt j) (Some day)))).

(** Lines 141-147: [i = s.DVS + 3] is a float. *)
Definition current_unit (day : date) (nLEAF : Z) : M unit :=
  let* s := get_states in
  let i := IFloat (DVS s + 3) in
  (let* x := read_DOEL i (IInt 0) in
   when (unset x) (assign_DOEL i (IInt 0) (Some day))) >>
  (let* x := read_DOEL i (IInt 1) in
   when (unset x && bool_decide (2 ≤ nLEAF)%Z) (assign_DOEL i (IInt 1) (Some day))) >>
  (let* x := read_DOEL i (IInt 2) in
   when (unset x && bool_decide (nLEAF = 3%Z)) (assign_DOEL i (IInt 0) (Some day))).

Definition integrate (day : date) : M unit :=
  commit_rates >>
  anthesis day >>
  let* s := get_states in
  let nLEAF := nLEAF_of (DVS s) in
  backfill day >>
  current_unit day nLEAF.

(** ** [_on_CROP_FINISH] *)

Definition _on_CROP_FINISH (day : date) (finish_type : option string) : M unit :=
  when (bool_decide (finish_type ∈ [Some "harvest"; Some "earliest"]))
       (modify_for_finalize (<["DOH" := day]>)).

(** ** Functional readings of the date bookkeeping

    These are not part of the program: they say, on the lists, what the loops
    of [integrate] are proved to do. *)

(** The first unset slot of [row] receives [day]. *)
Fixpoint fill_first (day : date) (row : list (option date)) : list (option date) :=
  match row with
  | [] => []
  | None :: row' => Some day :: row'
  | Some d :: row' => Some d :: fill_first day row'
  end.

(** One day of a truss: a started truss advances by one flower, a truss that
    has not started gets its first anthesis. *)
Definition truss_row (day : date) (row : list (option date)) : list (option date) :=
  match row with
  | [] => []
  | None :: row' => Some day :: row'
  | Some d :: row' => Some d :: fill_first day row'
  end.

(** What the first anthesis of a truss with slots [row] does to the first
    slot of the vegetative unit three positions ahead, [lrow]. *)
Definition truss_lead (day : date) (row lrow : list (option date)) : list (option date) :=
  match row, lrow with
  | None :: _, None :: lrow' => Some day :: lrow'
  | _, _ => lrow
  end.

(** The tables are large enough for the trusses [a, ..., a + len - 1]: each
    has a row with a first slot, and so has the unit three ahead of a truss
    that has not started. *)
Definition capacity (F L : list (list (option date))) (a len : nat) : Prop :=
  ∀ k, a ≤ k < a + len →
       ∃ row, F !! k = Some row ∧ row ≠ []
              ∧ (row !! 0 = Some None → ∃ lrow, L !! (k + 3) = Some lrow ∧ lrow ≠ []).

(** The object with its two date tables replaced. *)
Definition with_dates (F L : list (list (option date))) (o : DVS_Phenology) : DVS_Phenology :=
  mkObject (mkStates (DVS (states o)) (DVSF (states o)) L F (DOHF (states o)))
           (rates o) (_for_finalize o).

(** The object with its rate variables replaced, as the driver hands it to
    the next step. *)
Definition with_rates (r : RateVariables) (o : DVS_Phenology) : DVS_Phenology :=
  mkObject (states o) r (_for_finalize o).

(** A run of [integrate] steps, each with the day and the rates of that day;
    the object carries on whatever a step leaves behind. *)
Fixpoint run_days (steps : list (date * RateVariables)) (o : DVS_Phenology) : DVS_Phenology :=
  match steps with
  | [] => o
  | (day, r) :: steps' => run_days steps' (fst (integrate day (with_rates r o)))
  end.

(** Every date of [o] is still the same date in [o']. *)
Definition dates_kept (o o' : DVS_Phenology) : Prop :=
  (∀ i j d, cell (DOEF (states o)) i j = Some (Some d) →
            cell (DOEF (states o')) i j = Some (Some d)) ∧
  (∀ i j d, cell (DOEL (states o)) i j = Some (Some d) →
            cell (DOEL (states o')) i j = Some (Some d)).

(** The step touches the leaf table only, and keeps its dates. *)
Definition leaf_only (o o' : DVS_Phenology) : Prop :=
  DOEF (states o') = DOEF (states o) ∧ dates_kept o o'.

(** Whatever the outcome of [m], the object it leaves is related to the one
    it started from. *)
Definition keeps (Rel : relation DVS_Phenology) {A} (m : M A) : Prop :=
  ∀ o, Rel o (fst (m o)).

(** ** Relations between the object before and after a step *)

(** A slot over a step on [day]: a slot that does not exist still does not,
    a date stays, and an unset slot stays unset or receives [day]. *)
Definition slot_step (day : date) (x y : option (option date)) : Prop :=
  match x with
  | None => y = None
  | Some (Some d) => y = Some (Some d)
  | Some None => y = Some None ∨ y = Some (Some day)
  end.

Definition day_step (day : date) (o o' : DVS_Phenology) : Prop :=
  (∀ i j, slot_step day (cell (DOEF (states o)) i j) (cell (DOEF (states o')) i j))
  ∧ (∀ i j, slot_step day (cell (DOEL (states o)) i j) (cell (DOEL (states o')) i j)).

(** Everything but the dates is as before, both tables have their shapes,
    the trusses from [n] on and the units from [m] on are as before. *)
Definition frame (n m : nat) (o o' : DVS_Phenology) : Prop :=
  DVS (states o') = DVS (states o)
  ∧ DVSF (states o') = DVSF (states o)
  ∧ DOHF (states o') = DOHF (states o)
  ∧ rates o' = rates o
  ∧ _for_finalize o' = _for_finalize o
  ∧ length <$> DOEF (states o') = length <$> DOEF (states o)
  ∧ length <$> DOEL (states o') = length <$> DOEL (states o)
  ∧ (∀ k, n ≤ k → DOEF (states o') !! k = DOEF (states o) !! k)
  ∧ (∀ k, m ≤ k → DOEL (states o') !! k = DOEL (states o) !! k).

(** ** The driver's view: any sequence of calls of the three methods *)

Inductive method : Type :=
| CalcRates (day : date) (drvTEMP : R)
| Integrate (day : date)
| CropFinish (day : date) (finish_type : option string).

Definition invoke (c : method) : M unit :=
  match c with
  | CalcRates day drvTEMP => calc_rates day drvTEMP
  | Integrate day => integrate day
  | CropFinish day finish_type => _on_CROP_FINISH day finish_type
  end.

(** The object after the calls [cs], each made whatever the one before
    raised. *)
Fixpoint invoke_all (cs : list method) (o : DVS_Phenology) : DVS_Phenology :=
  match cs with
  | [] => o
  | c :: cs' => invoke_all cs' (fst (invoke c o))
  end.

(** The day of the last notification of [ns] whose tag is [harvest] or
    [earliest], if there is one. *)
Fixpoint last_finish (ns : list (date * option string)) : option date :=
  match ns with
  | [] => None
  | (day, finish_type) :: ns' =>
      match last_finish ns' with
      | Some d => Some d
      | None => if bool_decide (finish_type ∈ [Some "harvest"; Some "earliest"])
                then Some day else None
      end
  end.

(** The notifications among the calls [cs], in order. *)
Definition notifications (cs : list method) : list (date * option string) :=
  omap (λ c, match c with
             | CropFinish day finish_type => Some (day, finish_type)
             | _ => None
             end) cs.

(** The steps [steps], taken from stage [dvs], all have both rates assigned
    and a committed stage that puts truss [i] below [int(DVS)] and
    [int(DVS)] at most at [N]. *)
Fixpoint truss_in_bloom (i N : nat) (dvs : R) (steps : list (date * RateVariables)) : Prop :=
  match steps with
  | [] => True
  | (_, r) :: steps' =>
      ∃ dvr, DVR r = Some dvr ∧ is_Some (DVRF r)
             ∧ (Z.of_nat i < py_int (dvs + dvr) ≤ Z.of_nat N)%Z
             ∧ truss_in_bloom i N (dvs + dvr) steps'
  end.

(** ** Sample objects *)

(** A table of [rows] rows of [cols] unset slots, each row an object of its own. *)
Definition unset_table (rows cols : nat) : list (list (option date)) :=
  replicate rows (replicate cols None).

(** An object as [initialize] leaves it: one truss of one fruit at stage 0,
    every date unset, the rate variables [None]. *)
Definition o_initial : DVS_Phenology :=
  mkObject (mkStates 0 [[0%R]] (unset_table 4 3) (unset_table 1 2) (unset_table 1 1))
           (mkRates None None) ∅.

(** No truss yet, four vegetative units, and a plant rate of 0.5. *)
Definition o_half : DVS_Phenology :=
  mkObject (mkStates 0 [] (unset_table 4 3) [] [])
           (mkRates (Some 0.5%R) (Some [])) ∅.

(** A fruit table of one row of two and a rate table of one row of one. *)
Definition o_ragged : DVS_Phenology :=
  mkObject (mkStates 0 [[0; 0]%R] (unset_table 4 3) [] [])
           (mkRates (Some 0.5%R) (Some [[1%R]])) ∅.

(** One truss of two flowers not started, four vegetative units, [DVS] about
    to pass 1. *)
Definition o_first_truss : DVS_Phenology :=
  mkObject (mkStates 0.5 [] (unset_table 4 3) (unset_table 1 2) [])
           (mkRates (Some 0.6%R) (Some [])) ∅.

(** The same plant a day later: truss 0 has flowered on day 1. *)
Definition o_second_day : DVS_Phenology :=
  mkObject (mkStates (0.5 + 0.6) []
              [[Some 1%Z; Some 1%Z; Some 1%Z]; [Some 1%Z; Some 1%Z; Some 1%Z];
               [Some 1%Z; Some 1%Z; Some 1%Z]; [Some 1%Z; None; None]]
              [[Some 1%Z; None]] [])
           (mkRates (Some 0.6%R) (Some [])) ∅.

(** * [respiration.py]: the class [TOMGROSIM_Maintenance_Respiration]

    The kiosk is a dictionary from names to floats that also publishes the
    list [RGRL]; the rate variables are taken to be assignable by
    [__call__]. *)

Module Respiration.

Inductive error : Type :=
| KeyError
| ZeroDivisionError
| TraitError.

Inductive outcome (A : Type) : Type :=
| Done (a : A)
| Fail (e : error).

Arguments Done {A} a.
Arguments Fail {A} e.

Definition obind {A B} (r : outcome A) (k : A → outcome B) : outcome B :=
  match r with
  | Done a => k a
  | Fail e => Fail e
  end.

Notation "'let!' x ':=' r 'in' k" := (obind r (fun x => k))
  (at level 10, x name, r at level 100, k at level 200).

(** The value of a float arithmetic expression: a float, or a complex number
    once a negative float was raised to a power that is not an integer. *)
Inductive number : Type :=
| Real (x : R)
| Complex.

(** [x ** y] on floats. *)
Definition float_pow (x y : R) : outcome number :=
  if Rlt_dec 0 x then Done (Real (Rpower x y))
  else if Req_dec_T x 0 then
    if Rlt_dec 0 y then Done (Real 0)
    else if Req_dec_T y 0 then Done (Real 1)
    else Fail ZeroDivisionError
  else if Req_dec_T y (IZR (Zfloor y)) then Done (Real (powerRZ x (Zfloor y)))
  else Done Complex.

(** [sum(l)] *)
Definition sum (l : list R) : R := fold_left Rplus l 0%R.

(** [sum(l) / len(l)] *)
Definition mean (l : list R) : outcome R :=
  match l with
  | [] => Fail ZeroDivisionError
  | _ => Done (sum l / INR (length l))%R
  end.

Record Parameters : Type := mkParameters {
  Q10 : R;
  RMR : R;
  RML : R;
  RMS : R;
  RMO : R;
  RFSETB : list (R * R);
  COEFRGR : R
}.

Record RateVariables : Type := mkRates {
  PMRES : R;
  RGR : R
}.

Record VariableKiosk : Type := mkKiosk {
  items : gmap string R;
  RGRL : list R
}.

Record TOMGROSIM_Maintenance_Respiration : Type := mkObject {
  params : Parameters;
  rates : RateVariables;
  kiosk : VariableKiosk
}.

(** [kk[key]] *)
Definition getitem (kk : VariableKiosk) (key : string) : outcome R :=
  match items kk !! key with
  | Some v => Done v
  | None => Fail KeyError
  end.

(** Lines 39-48, up to the first assignment: the weighted sum, the
    temperature factor and the mean of the first seven entries of [RGRL]. *)
Definition factors (p : Parameters) (kk : VariableKiosk) (drvTEMP : R)
  : outcome (R * number * R) :=
  let! wrt := getitem kk "WRT" in
  let! wlv := getitem kk "WLV" in
  let! wst := getitem kk "WST" in
  let! wso := getitem kk "WSO" in
  let RMRES := (RMR p * wrt + RML p * wlv + RMS p * wst + RMO p * wso)%R in
  let! TEFF := float_pow (Q10 p) ((drvTEMP - 25) / 10) in
  let! rgr := mean (take 7 (RGRL kk)) in
  Done (RMRES, TEFF, rgr).

Definition __call__ (day : date) (drvTEMP : R) (self : TOMGROSIM_Maintenance_Respiration)
  : TOMGROSIM_Maintenance_Respiration * outcome R :=
  match factors (params self) (kiosk self) drvTEMP with
  | Fail e => (self, Fail e)
  | Done (RMRES, TEFF, rgr) =>
      (* r.RGR = sum(kk.RGRL[0:7]) / len(kk.RGRL[0:7]) *)
      let self1 := mkObject (params self) (mkRates (PMRES (rates self)) rgr) (kiosk self) in
      (* r.PMRES = RMRES * TEFF * (1 - exp(-p.COEFRGR * r.RGR)) *)
      match TEFF with
      | Real teff =>
          let pmres := (RMRES * teff * (1 - exp (- COEFRGR (params self) * rgr)))%R in
          (mkObject (params self) (mkRates pmres rgr) (kiosk self), Done pmres)
      | Complex => (self1, Fail TraitError)
      end
  end.

End Respiration.

(** A plant of four organs with two days of growth rates on record. *)
Definition resp_sample : Respiration.TOMGROSIM_Maintenance_Respiration :=
  Respiration.mkObject
    (Respiration.mkParameters 2 0.01 0.03 0.015 0.01 [] 33)
    (Respiration.mkRates (-99) (-99))
    (Respiration.mkKiosk
       (<["WRT" := 1%R]> (<["WLV" := 2%R]> (<["WST" := 3%R]> (<["WSO" := 4%R]> ∅))))
       [0.1; 0.2]%R).

(** The same object with other parameters and another kiosk. *)
Definition resp_with (p : Respiration.Parameters) (kk : Respiration.VariableKiosk)
    (self : Respiration.TOMGROSIM_Maintenance_Respiration)
  : Respiration.TOMGROSIM_Maintenance_Respiration :=
  Respiration.mkObject p (Respiration.rates self) kk.

(** ** Facts about numbers *)

Lemma py_int_nonneg (x : R) (n : Z) :
  (0 ≤ n)%Z → (IZR n <= x < IZR n + 1)%R → py_int x = n.
Proof.
  intros Hn Hx. unfold py_int.
  assert (0 <= IZR n)%R by (apply IZR_le; lia).
  destruct (Rle_dec 0 x) as [_|Hneg]; [|lra].
  by apply Zfloor_eq.
Qed.

Lemma py_mod_1 (n : Z) (f : R) :
  (0 <= f < 1)%R → py_mod (IZR n + f) 1 = f.
Proof.
  intros Hf. unfold py_mod.
  replace ((IZR n + f) / 1)%R with (IZR n + f)%R by lra.
  rewrite (Zfloor_eq n); lra.
Qed.

Lemma math_log_pos (x : R) : (0 < x)%R → math_log x = Ok (ln x).
Proof. intros Hx. unfold math_log. by destruct (Rlt_dec 0 x). Qed.

Lemma math_log_nonpos (x : R) : (x <= 0)%R → math_log x = Raise ValueError.
Proof. intros Hx. unfold math_log. destruct (Rlt_dec 0 x); [lra|done]. Qed.

Lemma py_range_0 (n : Z) : py_range 0 n = Z.of_nat <$> seq 0 (Z.to_nat n).
Proof.
  unfold py_range. rewrite Z.sub_0_r. apply list_fmap_ext. intros _ k _. lia.
Qed.

Lemma py_range_nat (a b : nat) :
  py_range (Z.of_nat a) (Z.of_nat b) = Z.of_nat <$> seq a (b - a).
Proof.
  unfold py_range. replace (Z.to_nat (Z.of_nat b - Z.of_nat a)) with (b - a) by lia.
  replace (seq a (b - a)) with (seq (a + 0) (b - a)) by (f_equal; lia).
  rewrite <- fmap_add_seq, <- list_fmap_compose.
  apply list_fmap_ext. intros _ k _. simpl. lia.
Qed.

(** ** The rate helpers and [calc_rates] *)

(** The cubic of the fruit rate, as a helper of the statements below. *)
Lemma dev_rate_fruit_closed_form (T x : R) :
  (0 < T)%R →
  _dev_rate_fruit T x
  = Ok (0.0181 + ln (T / 20) * (0.0392 - 0.213 * x + 0.415 * x ^ 2 - 0.24 * x ^ 3))%R.
Proof.
  intros HT. unfold _dev_rate_fruit. rewrite math_log_pos; [done|lra].
Qed.

(** C1: whatever the day, the temperature and the object, [calc_rates] raises
    [TypeError] and leaves the object as it was: each helper has two
    parameters and is called with three arguments, the instance first, so
    neither [DVR] nor [DVRF] is assigned. *)
Theorem calc_rates_raises_TypeError (day : date) (drvTEMP : R) (o : DVS_Phenology) :
  calc_rates day drvTEMP o = (o, Raise TypeError)
  ∧ (∀ a b, call_method def_dev_rate_plant [a; b] = Raise TypeError)
  ∧ (∀ a b, call_method def_dev_rate_fruit [a; b] = Raise TypeError)
  ∧ length (params def_dev_rate_plant) = 2
  ∧ length (params def_dev_rate_fruit) = 2.
Proof. by repeat split. Qed.

(** C2: for a positive temperature the plant helper returns
    [a + 0.1454 ln T - 0.001 DVS] with [a = -0.286]. *)
Theorem dev_rate_plant_closed_form (T dvs : R) :
  (0 < T)%R →
  let a := (-0.286)%R in
  _dev_rate_plant T dvs = Ok (a + 0.1454 * ln T - 0.001 * dvs)%R.
Proof.
  intros HT a. unfold _dev_rate_plant. by rewrite math_log_pos.
Qed.

Lemma dev_rate_plant_closed_form_witness :
  (0 < 20)%R ∧ _dev_rate_plant 20 3 = Ok (-0.286 + 0.1454 * ln 20 - 0.001 * 3)%R.
Proof. split; [lra | apply (dev_rate_plant_closed_form 20 3); lra]. Defined.

(** C3: with one fruit at stage 0 and a temperature of 20, [calc_rates] raises
    [TypeError] at the plant helper and [DVRF] stays [None]; the comprehension
    of line 72 on its own raises the same error at its first entry, where the
    closed form would give a table of the shape of [DVSF]. *)
Theorem calc_rates_produces_no_DVRF :
  calc_rates 1 20 o_initial = (o_initial, Raise TypeError)
  ∧ DVRF (rates (fst (calc_rates 1 20 o_initial))) = None
  ∧ map_result (map_result (λ x, let? v := call_method def_dev_rate_fruit [VFloat 20; VFloat x] in
                                 as_float v))
               (DVSF (states o_initial)) = Raise TypeError
  ∧ map_result (map_result (_dev_rate_fruit 20)) (DVSF (states o_initial))
    = Ok [[(0.0181 + ln (20 / 20) * (0.0392 - 0.213 * 0 + 0.415 * 0 ^ 2 - 0.24 * 0 ^ 3))%R]].
Proof.
  repeat split.
  simpl. rewrite dev_rate_fruit_closed_form by lra. done.
Qed.

Lemma dev_rate_plant_domain_error (T dvs : R) :
  (T <= 0)%R → _dev_rate_plant T dvs = Raise ValueError.
Proof. intros HT. unfold _dev_rate_plant. by rewrite math_log_nonpos. Qed.

(** C8: at temperature 0, [calc_rates] raises [TypeError], the error of the
    call with one argument too many, where the helper on its own raises the
    domain error of the logarithm; the state variables are as before. *)
Theorem calc_rates_at_zero_temperature :
  snd (calc_rates 1 0 o_initial) = Raise TypeError
  ∧ states (fst (calc_rates 1 0 o_initial)) = states o_initial
  ∧ _dev_rate_plant 0 (DVS (states o_initial)) = Raise ValueError.
Proof.
  repeat split. apply dev_rate_plant_domain_error. simpl. lra.
Qed.

Lemma nLEAF_of_IZR_plus (n : Z) (f : R) :
  (0 <= f < 1)%R →
  nLEAF_of (IZR n + f)
  = (if Rle_dec (2 / 3) f then 3 else if Rle_dec (1 / 3) f then 2 else 1)%Z.
Proof. intros Hf. unfold nLEAF_of. by rewrite py_mod_1. Qed.

(** C10: when [DVS = n + f] with [n] an integer and [0 <= f < 1], the
    leaf count is 3 for [f >= 2/3], 2 for [1/3 <= f < 2/3] and 1 below. *)
Theorem nLEAF_of_fraction (dvs : R) (n : Z) (f : R) :
  (0 <= dvs)%R → dvs = (IZR n + f)%R → (0 <= f < 1)%R →
  py_mod dvs 1 = f
  ∧ ((2 / 3 <= f)%R → nLEAF_of dvs = 3%Z)
  ∧ ((1 / 3 <= f < 2 / 3)%R → nLEAF_of dvs = 2%Z)
  ∧ ((f < 1 / 3)%R → nLEAF_of dvs = 1%Z).
Proof.
  intros _ -> Hf. rewrite nLEAF_of_IZR_plus, py_mod_1 by done.
  repeat split; intros H;
    destruct (Rle_dec (2 / 3) f); destruct (Rle_dec (1 / 3) f); done || lra.
Qed.

Lemma nLEAF_of_fraction_witness :
  nLEAF_of 0.1 = 1%Z ∧ nLEAF_of 0.34 = 2%Z ∧ nLEAF_of 0.67 = 3%Z ∧ nLEAF_of 2.67 = 3%Z.
Proof.
  repeat split.
  - apply (nLEAF_of_fraction 0.1 0 0.1); lra.
  - apply (nLEAF_of_fraction 0.34 0 0.34); lra.
  - apply (nLEAF_of_fraction 0.67 0 0.67); lra.
  - apply (nLEAF_of_fraction 2.67 2 0.67); lra.
Defined.

(** ** The finish handler *)

(** C9, as the code has it: with tag [harvest] or [earliest] the day is
    stored under ["DOH"], over whatever was there; with any other tag, or
    none, the object is unchanged; the handler never raises. *)
Theorem on_CROP_FINISH_records (day : date) (finish_type : option string) (o : DVS_Phenology) :
  snd (_on_CROP_FINISH day finish_type o) = Ok tt
  ∧ ((finish_type = Some "harvest" ∨ finish_type = Some "earliest") →
       fst (_on_CROP_FINISH day finish_type o)
       = mkObject (states o) (rates o) (<["DOH" := day]> (_for_finalize o))
       ∧ _for_finalize (fst (_on_CROP_FINISH day finish_type o)) !! "DOH" = Some day)
  ∧ (¬ (finish_type = Some "harvest" ∨ finish_type = Some "earliest") →
       fst (_on_CROP_FINISH day finish_type o) = o).
Proof.
  unfold _on_CROP_FINISH, when.
  case_bool_decide as Hin.
  - split; [done|]. split.
    + intros _. split; [done|]. apply lookup_insert_eq.
    + intros Hn. exfalso. apply Hn.
      apply elem_of_cons in Hin as [Hin|Hin]; [by left|].
      apply list_elem_of_singleton in Hin. by right.
  - split; [done|]. split.
    + intros [-> | ->]; exfalso; apply Hin; repeat constructor.
    + done.
Qed.

(** C9, against the claim as stated: a second harvest notification, on day 2,
    replaces the day 1 recorded by the first. *)
Lemma on_CROP_FINISH_not_idempotent :
  let o1 := fst (_on_CROP_FINISH 1 (Some "harvest") o_initial) in
  let o2 := fst (_on_CROP_FINISH 2 (Some "harvest") o1) in
  _for_finalize o1 !! "DOH" = Some 1%Z
  ∧ _for_finalize o2 !! "DOH" = Some 2%Z
  ∧ o2 ≠ o1.
Proof.
  repeat split. intros H.
  assert (_for_finalize (fst (_on_CROP_FINISH 2 (Some "harvest")
            (fst (_on_CROP_FINISH 1 (Some "harvest") o_initial)))) !! "DOH"
          = _for_finalize (fst (_on_CROP_FINISH 1 (Some "harvest") o_initial)) !! "DOH")
    as Heq by (by rewrite H).
  discriminate Heq.
Qed.

(** ** The commit of the rates *)

Lemma commit_rates_assigned (o : DVS_Phenology) (dvr : R) (dvrf : list (list R)) :
  DVR (rates o) = Some dvr → DVRF (rates o) = Some dvrf →
  commit_rates o
  = (mkObject (mkStates (DVS (states o) + dvr)%R (zip_with zip_sum (DVSF (states o)) dvrf)
                        (DOEL (states o)) (DOEF (states o)) (DOHF (states o)))
              (rates o) (_for_finalize o), Ok tt).
Proof.
  intros Hr Hrf. unfold commit_rates, bind, get_rates, get_states, lift. simpl.
  by rewrite Hr, Hrf.
Qed.

(** C7, as the code has it: the commit adds [DVR] to [DVS] and replaces
    [DVSF] by the sums over the common part of the two tables: as many rows
    as the shorter table, each row as long as the shorter of the two rows,
    entry [(i, j)] being [DVSF_ij + DVRF_ij]; it does not raise, and touches
    nothing else.  With equal shapes every entry is incremented. *)
Theorem commit_rates_truncates (o : DVS_Phenology) (dvr : R) (dvrf : list (list R)) :
  DVR (rates o) = Some dvr → DVRF (rates o) = Some dvrf →
  let o' := fst (commit_rates o) in
  snd (commit_rates o) = Ok tt
  ∧ DVS (states o') = (DVS (states o) + dvr)%R
  ∧ length (DVSF (states o')) = length (DVSF (states o)) `min` length dvrf
  ∧ (∀ i (row rrow : list R),
       DVSF (states o) !! i = Some row → dvrf !! i = Some rrow →
       ∃ row', DVSF (states o') !! i = Some row'
               ∧ length row' = length row `min` length rrow
               ∧ ∀ j a b, row !! j = Some a → rrow !! j = Some b →
                          row' !! j = Some (a + b)%R)
  ∧ DOEL (states o') = DOEL (states o)
  ∧ DOEF (states o') = DOEF (states o)
  ∧ DOHF (states o') = DOHF (states o)
  ∧ rates o' = rates o.
Proof.
  intros Hr Hrf o'. unfold o'. rewrite (commit_rates_assigned o dvr dvrf) by done.
  simpl. repeat split.
  - apply length_zip_with.
  - intros i row rrow Hrow Hrrow. exists (zip_sum row rrow). repeat split.
    + rewrite lookup_zip_with, Hrow, Hrrow. done.
    + apply length_zip_with.
    + intros j a b Ha Hb. unfold zip_sum. rewrite lookup_zip_with, Ha, Hb. simpl.
      f_equal. lra.
Qed.

Lemma commit_rates_truncates_witness :
  snd (commit_rates o_ragged) = Ok tt
  ∧ length (DVSF (states (fst (commit_rates o_ragged)))) = 1.
Proof.
  pose proof (commit_rates_truncates o_ragged 0.5 [[1%R]] eq_refl eq_refl) as H.
  simpl in H. destruct H as (Hok & _ & Hlen & _). split; [exact Hok | exact Hlen].
Defined.

(** ** Subscripts at natural indices *)

Lemma norm_index_nat (len k : nat) :
  norm_index len (IInt (Z.of_nat k)) = if decide (k < len) then Ok k else Raise IndexError.
Proof.
  unfold norm_index. repeat case_bool_decide; case_decide; try lia.
  - by rewrite Nat2Z.id.
  - done.
Qed.

Lemma subscript_nat {A} (l : list A) (k : nat) :
  subscript l (IInt (Z.of_nat k))
  = match l !! k with Some a => Ok a | None => Raise IndexError end.
Proof.
  unfold subscript. rewrite norm_index_nat. case_decide as Hk; simpl; [done|].
  rewrite lookup_ge_None_2; [done|lia].
Qed.

Lemma store_subscript_nat {A} (l : list A) (k : nat) (v : A) :
  store_subscript l (IInt (Z.of_nat k)) v
  = if decide (k < length l) then Ok (<[k := v]> l) else Raise IndexError.
Proof. unfold store_subscript. rewrite norm_index_nat. by case_decide. Qed.

Lemma subscript2_nat {A} (l : list (list A)) (i j : nat) :
  subscript2 l (IInt (Z.of_nat i)) (IInt (Z.of_nat j))
  = match cell l i j with Some a => Ok a | None => Raise IndexError end.
Proof.
  unfold subscript2, cell. rewrite subscript_nat.
  destruct (l !! i) as [row|]; simpl; [|done]. apply subscript_nat.
Qed.

Lemma store_subscript2_nat {A} (l : list (list A)) (i j : nat) (v : A) (row : list A) :
  l !! i = Some row → j < length row →
  store_subscript2 l (IInt (Z.of_nat i)) (IInt (Z.of_nat j)) v = Ok (<[i := <[j := v]> row]> l).
Proof.
  intros Hrow Hj. unfold store_subscript2. rewrite subscript_nat, Hrow. simpl.
  rewrite store_subscript_nat. rewrite decide_True by done. simpl.
  rewrite store_subscript_nat. rewrite decide_True; [done|].
  by eapply lookup_lt_Some.
Qed.

(** ** Subscripts at any index: what a successful read and write touch *)

Lemma subscript_Ok {A} (l : list A) (i : pyidx) (a : A) :
  subscript l i = Ok a → ∃ k, norm_index (length l) i = Ok k ∧ l !! k = Some a.
Proof.
  unfold subscript. destruct (norm_index (length l) i) as [k|e]; simpl; [|done].
  destruct (l !! k) as [a'|] eqn:Hk; [|done]. intros [= ->]. eauto.
Qed.

Lemma store_subscript_Ok {A} (l l' : list A) (i : pyidx) (v : A) :
  store_subscript l i v = Ok l' → ∃ k, norm_index (length l) i = Ok k ∧ l' = <[k := v]> l.
Proof.
  unfold store_subscript. destruct (norm_index (length l) i) as [k|e]; simpl; [|done].
  intros [= <-]. eauto.
Qed.

Lemma subscript2_Ok {A} (l : list (list A)) (i j : pyidx) (a : A) :
  subscript2 l i j = Ok a →
  ∃ ki kj row, norm_index (length l) i = Ok ki ∧ l !! ki = Some row
               ∧ norm_index (length row) j = Ok kj ∧ row !! kj = Some a.
Proof.
  unfold subscript2. destruct (subscript l i) as [row|e] eqn:Hrow; simpl; [|done].
  intros Ha. apply subscript_Ok in Hrow as (ki & Hki & Hrow).
  apply subscript_Ok in Ha as (kj & Hkj & Ha). eauto 10.
Qed.

Lemma store_subscript2_Ok {A} (l l' : list (list A)) (i j : pyidx) (v : A) :
  store_subscript2 l i j v = Ok l' →
  ∃ ki kj row, norm_index (length l) i = Ok ki ∧ l !! ki = Some row
               ∧ norm_index (length row) j = Ok kj ∧ l' = <[ki := <[kj := v]> row]> l.
Proof.
  unfold store_subscript2. destruct (subscript l i) as [row|e] eqn:Hrow; simpl; [|done].
  destruct (store_subscript row j v) as [row'|e] eqn:Hrow'; simpl; [|done].
  intros Hl'. apply subscript_Ok in Hrow as (ki & Hki & Hrow).
  apply store_subscript_Ok in Hrow' as (kj & Hkj & ->).
  apply store_subscript_Ok in Hl' as (ki' & Hki' & ->).
  rewrite Hki in Hki'. injection Hki' as <-. eauto 10.
Qed.

Lemma cell_insert_row {A} (l : list (list A)) (i j a b : nat) (v : A) (row : list A) :
  l !! i = Some row →
  cell (<[i := <[j := v]> row]> l) a b
  = if decide (a = i ∧ b = j ∧ j < length row) then Some v else cell l a b.
Proof.
  intros Hrow. unfold cell. destruct (decide (a = i)) as [->|Hne].
  - rewrite list_lookup_insert_eq by (by eapply lookup_lt_Some). rewrite Hrow.
    destruct (decide (b = j)) as [->|Hnej].
    + case_decide as Hd.
      * apply list_lookup_insert_eq. tauto.
      * rewrite list_insert_ge; [done|]. apply Nat.nlt_ge. tauto.
    + rewrite list_lookup_insert_ne by done. rewrite decide_False; [done|tauto].
  - rewrite list_lookup_insert_ne by done. rewrite decide_False; [done|tauto].
Qed.

(** A write to a slot that was read as unset keeps every date of the table. *)
Lemma guarded_store_keeps (l l' : list (list (option date))) (i j : pyidx) (v : option date) :
  subscript2 l i j = Ok None → store_subscript2 l i j v = Ok l' →
  ∀ a b d, cell l a b = Some (Some d) → cell l' a b = Some (Some d).
Proof.
  intros Hread Hwrite a b d Hab.
  apply subscript2_Ok in Hread as (ki & kj & row & Hki & Hrow & Hkj & Hslot).
  apply store_subscript2_Ok in Hwrite as (ki' & kj' & row' & Hki' & Hrow' & Hkj' & ->).
  rewrite Hki in Hki'. injection Hki' as <-.
  rewrite Hrow in Hrow'. injection Hrow' as <-.
  rewrite Hkj in Hkj'. injection Hkj' as <-.
  rewrite cell_insert_row by done. case_decide as Hd; [|done].
  destruct Hd as (-> & -> & _). unfold cell in Hab. rewrite Hrow, Hslot in Hab. done.
Qed.

(** ** Relations kept by every outcome of a method *)

#[local] Instance dates_kept_preorder : PreOrder dates_kept.
Proof.
  split.
  - intros o. by split.
  - intros o1 o2 o3 [HF12 HL12] [HF23 HL23]. split; eauto.
Qed.

#[local] Instance leaf_only_preorder : PreOrder leaf_only.
Proof.
  split.
  - intros o. split; [done|reflexivity].
  - intros o1 o2 o3 [HF12 HL12] [HF23 HL23]. split; [congruence|by etrans].
Qed.

Section keeps.
Context (Rel : relation DVS_Phenology) `{!PreOrder Rel}.

Lemma keeps_ret {A} (a : A) : keeps Rel (ret a).
Proof. intros o. simpl. reflexivity. Qed.

Lemma keeps_lift {A} (r : result A) : keeps Rel (lift r).
Proof. intros o. simpl. reflexivity. Qed.

Lemma keeps_get_states : keeps Rel get_states.
Proof. intros o. simpl. reflexivity. Qed.

Lemma keeps_bind {A B} (m : M A) (k : A → M B) :
  keeps Rel m → (∀ a, keeps Rel (k a)) → keeps Rel (bind m k).
Proof.
  intros Hm Hk o. unfold bind. specialize (Hm o).
  destruct (m o) as [o' [a|e]]; simpl in *; [|done].
  etrans; [exact Hm|apply Hk].
Qed.

Lemma keeps_when (b : bool) (m : M unit) : keeps Rel m → keeps Rel (when b m).
Proof. intros Hm. destruct b; [done|apply keeps_ret]. Qed.

Lemma keeps_for_in {A} (xs : list A) (body : A → M unit) :
  (∀ x, keeps Rel (body x)) → keeps Rel (for_in xs body).
Proof.
  intros Hbody. induction xs as [|x xs IH]; simpl; [apply keeps_ret|].
  apply keeps_bind; [apply Hbody|done].
Qed.

Lemma keeps_for_in_break {A} (xs : list A) (body : A → M bool) :
  (∀ x, keeps Rel (body x)) → keeps Rel (for_in_break xs body).
Proof.
  intros Hbody. induction xs as [|x xs IH]; simpl; [apply keeps_ret|].
  apply keeps_bind; [apply Hbody|]. intros [|]; [apply keeps_ret|done].
Qed.

End keeps.

Lemma keeps_weaken (Rel Rel' : relation DVS_Phenology) {A} (m : M A) :
  (∀ o o', Rel o o' → Rel' o o') → keeps Rel m → keeps Rel' m.
Proof. intros Hsub Hm o. apply Hsub, Hm. Qed.

(** A leaf slot is written only after it was read as unset. *)
Lemma keeps_guarded_DOEL (i j : pyidx) (v : option date) :
  keeps leaf_only (let* x := read_DOEL i j in when (unset x) (assign_DOEL i j v)).
Proof.
  intros o. unfold bind, read_DOEL, assign_DOEL, get_states, lift, when, bind. simpl.
  destruct (subscript2 (DOEL (states o)) i j) as [[d|]|e] eqn:Hread; simpl;
    try reflexivity.
  destruct (store_subscript2 (DOEL (states o)) i j v) as [l'|e] eqn:Hwrite; simpl;
    [|reflexivity].
  split; [done|]. split; simpl; [done|].
  by apply (guarded_store_keeps _ _ i j v).
Qed.

(** A flower slot is written only after it was read as unset. *)
Lemma keeps_read_assign_DOEF {B} (i j : pyidx) (v : option date) (k1 k2 : M B) :
  keeps dates_kept k1 → keeps dates_kept k2 →
  keeps dates_kept (let* y := read_DOEF i j in
                    if negb (unset y) then k1 else assign_DOEF i j v >> k2).
Proof.
  intros Hk1 Hk2 o. unfold bind at 1. unfold read_DOEF, get_states, lift, bind at 1. simpl.
  destruct (subscript2 (DOEF (states o)) i j) as [[d|]|e] eqn:Hread; simpl;
    [apply Hk1| |reflexivity].
  unfold bind at 1. unfold assign_DOEF, bind, get_states, lift. simpl.
  destruct (store_subscript2 (DOEF (states o)) i j v) as [l'|e] eqn:Hwrite; simpl;
    [|reflexivity].
  etrans; [|apply Hk2].
  split; simpl; [|done].
  by apply (guarded_store_keeps _ _ i j v).
Qed.

Lemma keeps_len_DOEF (Rel : relation DVS_Phenology) `{!PreOrder Rel} (i : pyidx) :
  keeps Rel (len_DOEF i).
Proof.
  unfold len_DOEF. apply keeps_bind; [done|apply keeps_get_states; done|].
  intros s. apply keeps_bind; [done|apply keeps_lift; done|].
  intros row. by apply keeps_ret.
Qed.

Lemma keeps_truss_step (day : date) (i : Z) : keeps dates_kept (truss_step day i).
Proof.
  unfold truss_step. apply keeps_read_assign_DOEF.
  - apply keeps_bind; [apply _|apply keeps_len_DOEF; apply _|].
    intros n. apply keeps_for_in_break; [apply _|]. intros j.
    apply (keeps_read_assign_DOEF (IInt i) (IInt j) (Some day) (ret false) (ret true));
      apply keeps_ret; apply _.
  - apply (keeps_weaken leaf_only); [by intros ?? [_ ?]|apply keeps_guarded_DOEL].
Qed.

Lemma keeps_commit_rates : keeps dates_kept commit_rates.
Proof.
  intros o. unfold commit_rates, bind, get_rates, get_states, lift, float_operand, iterable.
  simpl. destruct (DVR (rates o)); simpl; [|reflexivity].
  destruct (DVRF (rates o)); simpl; by split.
Qed.

Lemma keeps_anthesis (day : date) : keeps dates_kept (anthesis day).
Proof.
  unfold anthesis. apply keeps_bind; [apply _|apply keeps_get_states; apply _|].
  intros s. apply keeps_for_in; [apply _|]. apply keeps_truss_step.
Qed.

Lemma keeps_backfill (day : date) : keeps leaf_only (backfill day).
Proof.
  unfold backfill. apply keeps_bind; [apply _|apply keeps_get_states; apply _|].
  intros s. apply keeps_for_in; [apply _|]. intros i.
  apply keeps_for_in; [apply _|]. intros j. apply keeps_guarded_DOEL.
Qed.

(** Lines 141-147 never get past their first subscript: the index is a float. *)
Lemma current_unit_raises (day : date) (nLEAF : Z) (o : DVS_Phenology) :
  current_unit day nLEAF o = (o, Raise TypeError).
Proof. reflexivity. Qed.

Lemma keeps_current_unit (Rel : relation DVS_Phenology) `{!PreOrder Rel}
    (day : date) (nLEAF : Z) :
  keeps Rel (current_unit day nLEAF).
Proof. intros o. rewrite current_unit_raises. simpl. reflexivity. Qed.

Lemma keeps_integrate (day : date) : keeps dates_kept (integrate day).
Proof.
  unfold integrate.
  apply keeps_bind; [apply _|apply keeps_commit_rates|]. intros _.
  apply keeps_bind; [apply _|apply keeps_anthesis|]. intros _.
  apply keeps_bind; [apply _|apply keeps_get_states; apply _|]. intros s.
  apply keeps_bind; [apply _| |].
  - apply (keeps_weaken leaf_only); [by intros ?? [_ ?]|apply keeps_backfill].
  - intros _. apply keeps_current_unit. apply _.
Qed.

(** C5: over any run of [integrate] steps, whatever the days, the rates and
    the outcome of each step, an entry of [DOEF] or [DOEL] that holds a date
    holds the same date afterwards.  The branch of [nLEAF == 3] that would
    write slot 0 again is never reached, so the property has no exception. *)
Theorem integrate_keeps_dates (steps : list (date * RateVariables)) (o : DVS_Phenology)
    (i j : nat) (d : date) :
  (cell (DOEF (states o)) i j = Some (Some d) →
   cell (DOEF (states (run_days steps o))) i j = Some (Some d))
  ∧ (cell (DOEL (states o)) i j = Some (Some d) →
     cell (DOEL (states (run_days steps o))) i j = Some (Some d)).
Proof.
  assert (dates_kept o (run_days steps o)) as [HF HL]; [|by split; eauto].
  revert o. induction steps as [|[day r] steps IH]; intros o; simpl; [reflexivity|].
  etrans; [|apply IH].
  etrans; [|apply keeps_integrate]. by split.
Qed.

(** ** The anthesis loop, truss by truss *)

Lemma with_dates_id (o : DVS_Phenology) :
  with_dates (DOEF (states o)) (DOEL (states o)) o = o.
Proof. by destruct o as [[] ? ?]. Qed.

Lemma fill_first_full (day : date) (row : list (option date)) :
  (∀ j, row !! j ≠ Some None) → fill_first day row = row.
Proof.
  induction row as [|[d|] row IH]; intros Hfull; simpl; [done| |].
  - f_equal. apply IH. intros j. apply (Hfull (S j)).
  - by destruct (Hfull 0).
Qed.

Lemma fill_first_unset (day : date) (row : list (option date)) (j : nat) :
  row !! j = Some None → (∀ k, k < j → row !! k ≠ Some None) →
  fill_first day row = <[j := Some day]> row.
Proof.
  revert j. induction row as [|[d|] row IH]; intros j Hj Hbefore; [done| |].
  - destruct j as [|j]; [done|]. simpl. f_equal. apply IH; [done|].
    intros k Hk. apply (Hbefore (S k)). lia.
  - destruct j as [|j]; [done|]. destruct (Hbefore 0); [lia|done].
Qed.

Lemma fill_first_lookup (day : date) (row : list (option date)) (j : nat) (d : date) :
  row !! j = Some None → fill_first day row !! j = Some (Some d) → d = day.
Proof.
  revert j. induction row as [|[d'|] row IH]; intros j Hj Hj'; [done| |].
  - destruct j as [|j]; [done|]. by apply (IH j).
  - destruct j as [|j]; simpl in *; [congruence|]. congruence.
Qed.

(** The loop of lines 119-124, entered at slot [length pre] with the slots of
    [pre] behind it: the first unset slot of [suf] receives the day. *)
Lemma scan_flowers (day : date) (i : nat) (suf pre : list (option date)) (o : DVS_Phenology) :
  DOEF (states o) !! i = Some (pre ++ suf) →
  for_in_break (Z.of_nat <$> seq (length pre) (length suf))
    (λ j, let* y := read_DOEF (IInt (Z.of_nat i)) (IInt j) in
          if negb (unset y) then ret false
          else assign_DOEF (IInt (Z.of_nat i)) (IInt j) (Some day) >> ret true) o
  = (with_dates (<[i := pre ++ fill_first day suf]> (DOEF (states o))) (DOEL (states o)) o,
     Ok tt).
Proof.
  revert pre. induction suf as [|x suf IH]; intros pre Hrow.
  - simpl. rewrite list_insert_id by done. by rewrite with_dates_id.
  - assert (cell (DOEF (states o)) i (length pre) = Some x) as Hcell.
    { unfold cell. rewrite Hrow. by apply list_lookup_middle. }
    simpl. unfold bind at 1. unfold read_DOEF, bind at 1, get_states, lift. simpl.
    rewrite subscript2_nat, Hcell. destruct x as [d|]; simpl.
    + specialize (IH (pre ++ [Some d])).
      rewrite length_app, Nat.add_1_r, <- !app_assoc in IH. simpl in IH.
      by apply IH.
    + unfold bind, assign_DOEF, get_states, lift, bind. simpl.
      rewrite (store_subscript2_nat _ _ _ _ (pre ++ None :: suf)); [|done|].
      * simpl. rewrite insert_app_r_alt by done. by rewrite Nat.sub_diag.
      * rewrite length_app. simpl. lia.
Qed.

Lemma truss_step_started (day : date) (i : nat) (d : date) (tl : list (option date))
    (o : DVS_Phenology) :
  DOEF (states o) !! i = Some (Some d :: tl) →
  truss_step day (Z.of_nat i) o
  = (with_dates (<[i := Some d :: fill_first day tl]> (DOEF (states o))) (DOEL (states o)) o,
     Ok tt).
Proof.
  intros Hrow. unfold truss_step.
  unfold bind at 1. unfold read_DOEF, bind at 1, get_states, lift. simpl.
  change (IInt 0) with (IInt (Z.of_nat 0)).
  rewrite subscript2_nat. unfold cell. rewrite Hrow. simpl.
  unfold bind at 1. unfold len_DOEF, bind, get_states, lift, ret. simpl.
  rewrite subscript_nat, Hrow. simpl.
  change 1%Z with (Z.of_nat 1).
  change (Z.pos (Pos.of_succ_nat (length tl))) with (Z.of_nat (S (length tl))).
  rewrite py_range_nat. simpl. rewrite Nat.sub_0_r.
  apply (scan_flowers day i tl [Some d] o Hrow).
Qed.

Lemma truss_step_first (day : date) (i : nat) (tl : list (option date))
    (x : option date) (ltl : list (option date)) (o : DVS_Phenology) :
  DOEF (states o) !! i = Some (None :: tl) →
  DOEL (states o) !! (i + 3) = Some (x :: ltl) →
  truss_step day (Z.of_nat i) o
  = (with_dates (<[i := Some day :: tl]> (DOEF (states o)))
                (<[i + 3 := truss_lead day (None :: tl) (x :: ltl)]> (DOEL (states o))) o,
     Ok tt).
Proof.
  intros Hrow Hlrow. unfold truss_step.
  unfold bind at 1. unfold read_DOEF, bind at 1, get_states, lift. simpl.
  change (IInt 0) with (IInt (Z.of_nat 0)).
  rewrite subscript2_nat. unfold cell at 1. rewrite Hrow. simpl.
  unfold bind at 1. unfold assign_DOEF, bind at 1, bind at 1, get_states, lift. simpl.
  rewrite (store_subscript2_nat _ _ _ _ (None :: tl)); [|done|simpl; lia].
  simpl. unfold bind at 1. unfold read_DOEL, bind at 1, get_states, lift. simpl.
  replace (Z.of_nat i + 3)%Z with (Z.of_nat (i + 3)) by lia.
  rewrite subscript2_nat. unfold cell. rewrite Hlrow. simpl.
  destruct x as [d|]; simpl.
  - rewrite (list_insert_id (DOEL (states o))) by done. done.
  - unfold assign_DOEL, bind, get_states, lift. simpl.
    rewrite (store_subscript2_nat _ _ _ _ (None :: ltl)); [done|done|simpl; lia].
Qed.

(** One iteration, for a truss within capacity. *)
Lemma truss_step_capacity (day : date) (i : nat) (row : list (option date))
    (o : DVS_Phenology) :
  DOEF (states o) !! i = Some row → row ≠ [] →
  (row !! 0 = Some None → ∃ lrow, DOEL (states o) !! (i + 3) = Some lrow ∧ lrow ≠ []) →
  truss_step day (Z.of_nat i) o
  = (with_dates (<[i := truss_row day row]> (DOEF (states o)))
                (alter (truss_lead day row) (i + 3) (DOEL (states o))) o,
     Ok tt).
Proof.
  intros Hrow Hne Hlead. destruct row as [|[d|] tl]; [done| |].
  - rewrite (truss_step_started day i d tl) by done. simpl.
    by rewrite list_alter_id.
  - destruct Hlead as (lrow & Hlrow & Hlne); [done|].
    destruct lrow as [|x ltl]; [done|].
    rewrite (truss_step_first day i tl x ltl) by done. simpl. do 3 f_equal.
    apply list_eq. intros k. destruct (decide (k = i + 3)) as [->|Hk].
    + rewrite list_lookup_insert_eq by (by eapply lookup_lt_Some).
      by rewrite list_lookup_alter_eq, Hlrow.
    + by rewrite list_lookup_insert_ne, list_lookup_alter_ne.
Qed.

(** The loop over the trusses [a, ..., a + len - 1], within capacity: it does
    not raise; every such truss gets its day and the unit three ahead of it
    its lead; nothing else moves. *)
Lemma anthesis_loop (day : date) (len : nat) :
  ∀ (a : nat) (o : DVS_Phenology),
    capacity (DOEF (states o)) (DOEL (states o)) a len →
    ∃ F' L',
      for_in (Z.of_nat <$> seq a len) (truss_step day) o = (with_dates F' L' o, Ok tt)
      ∧ (∀ k, F' !! k = if decide (a ≤ k < a + len)
                        then truss_row day <$> DOEF (states o) !! k
                        else DOEF (states o) !! k)
      ∧ (∀ k row, a ≤ k < a + len → DOEF (states o) !! k = Some row →
                  L' !! (k + 3) = truss_lead day row <$> DOEL (states o) !! (k + 3))
      ∧ (∀ j, j < a + 3 ∨ a + len + 3 ≤ j → L' !! j = DOEL (states o) !! j).
Proof.
  induction len as [|len IH]; intros a o Hcap.
  - exists (DOEF (states o)), (DOEL (states o)). simpl. rewrite with_dates_id.
    split; [done|]. split; [|split].
    + intros k. rewrite decide_False; [done|lia].
    + intros k row Hk. lia.
    + done.
  - destruct (Hcap a) as (row & Hrow & Hne & Hlead); [lia|].
    simpl. unfold bind. rewrite (truss_step_capacity day a row o) by done.
    set (o1 := with_dates _ _ o).
    destruct (IH (S a) o1) as (F' & L' & Hrun & HF & HL & HLout).
    { intros k Hk. destruct (Hcap k) as (rowk & Hrowk & Hnek & Hleadk); [lia|].
      exists rowk. simpl. rewrite list_lookup_insert_ne by lia.
      split; [done|]. split; [done|]. intros H0.
      rewrite list_lookup_alter_ne by lia. auto. }
    exists F', L'. split; [exact Hrun|]. split; [|split].
    + intros k. rewrite HF. simpl. destruct (decide (k = a)) as [->|Hk].
      * rewrite decide_False by lia. rewrite decide_True by lia.
        rewrite list_lookup_insert_eq by (by eapply lookup_lt_Some).
        by rewrite Hrow.
      * rewrite list_lookup_insert_ne by done.
        repeat case_decide; done || lia.
    + intros k rowk Hk Hrowk. destruct (decide (k = a)) as [->|Hka].
      * rewrite HLout by lia. simpl. rewrite list_lookup_alter_eq.
        rewrite Hrow in Hrowk. by injection Hrowk as ->.
      * rewrite (HL k rowk); [|lia|simpl; by rewrite list_lookup_insert_ne].
        simpl. by rewrite list_lookup_alter_ne by lia.
    + intros j Hj. rewrite HLout by lia. simpl.
      by rewrite list_lookup_alter_ne by lia.
Qed.

(** Tables with a row, not empty, for every truss below [n] and every unit
    below [n + 3] have the capacity the loop needs. *)
Lemma capacity_sized (F L : list (list (option date))) (n : nat) :
  n ≤ length F → n + 3 ≤ length L →
  Forall (λ row, row ≠ []) F → Forall (λ row, row ≠ []) L →
  capacity F L 0 n.
Proof.
  intros HF HL HFne HLne k Hk.
  destruct (lookup_lt_is_Some_2 F k) as [row Hrow]; [lia|].
  exists row. split; [done|]. split.
  - by apply (Forall_lookup_1 _ _ _ _ HFne Hrow).
  - intros _. destruct (lookup_lt_is_Some_2 L (k + 3)) as [lrow Hlrow]; [lia|].
    exists lrow. split; [done|]. by apply (Forall_lookup_1 _ _ _ _ HLne Hlrow).
Qed.

(** ** The whole step *)

(** With both rates assigned, the step commits them, runs the anthesis loop
    and, if that did not raise, the back-fill; it then raises [TypeError] at
    the first subscript of line 142 unless the back-fill raised before. *)
Lemma integrate_assigned (day : date) (o : DVS_Phenology) (dvr : R) (dvrf : list (list R)) :
  DVR (rates o) = Some dvr → DVRF (rates o) = Some dvrf →
  integrate day o
  = match anthesis day (fst (commit_rates o)) with
    | (o2, Ok _) =>
        (fst (backfill day o2),
         match snd (backfill day o2) with Ok _ => Raise TypeError | Raise e => Raise e end)
    | (o2, Raise e) => (o2, Raise e)
    end.
Proof.
  intros Hr Hrf. unfold integrate. unfold bind at 1.
  rewrite (commit_rates_assigned o dvr dvrf) by done. simpl.
  unfold bind at 1. destruct (anthesis day _) as [o2 [[]|e]]; [|done].
  unfold bind at 1. unfold get_states. unfold bind at 1.
  destruct (backfill day o2) as [o3 [[]|e]]; [|done].
  by rewrite current_unit_raises.
Qed.

(** The two date tables after a step within capacity. *)
Lemma integrate_dates (day : date) (o : DVS_Phenology) (dvr : R) (dvrf : list (list R)) :
  DVR (rates o) = Some dvr → DVRF (rates o) = Some dvrf →
  let n := Z.to_nat (py_int (DVS (states o) + dvr)) in
  let o' := fst (integrate day o) in
  capacity (DOEF (states o)) (DOEL (states o)) 0 n →
  (∀ k, DOEF (states o') !! k
        = if decide (k < n) then truss_row day <$> DOEF (states o) !! k
          else DOEF (states o) !! k)
  ∧ (∀ k row lrow b d,
       k < n → DOEF (states o) !! k = Some row → DOEL (states o) !! (k + 3) = Some lrow →
       truss_lead day row lrow !! b = Some (Some d) →
       cell (DOEL (states o')) (k + 3) b = Some (Some d)).
Proof.
  intros Hr Hrf n o' Hcap. unfold o'.
  rewrite (integrate_assigned day o dvr dvrf) by done.
  rewrite (commit_rates_assigned o dvr dvrf) by done. simpl.
  set (o1 := mkObject _ _ _).
  destruct (anthesis_loop day n 0 o1 Hcap) as (F' & L' & Hrun & HF & HL & _).
  unfold anthesis, bind, get_states. rewrite py_range_0. simpl.
  fold n. rewrite Hrun.
  destruct (keeps_backfill day (with_dates F' L' o1)) as [HsameF [_ HkeptL]].
  simpl in HsameF, HkeptL. simpl. split.
  - intros k. rewrite HsameF, HF. repeat case_decide; done || lia.
  - intros k row lrow b d Hk Hrow Hlrow Hb. apply HkeptL.
    unfold cell. rewrite (HL k row) by (done || lia). simpl. by rewrite Hlrow.
Qed.

(** C6: in a step with both rates assigned and the tables within capacity up
    to [int(DVS)] of the committed [DVS], whatever the step raises afterwards:
    a truss [i < int(DVS)] that had started gets the day in its first unset
    slot among [1, 2, ...] and in no other slot, and is unchanged when it has
    none; a truss that had not started gets the day in slot 0 only, and
    [DOEL[i+3][0]] gets the same day if it was unset; hence a slot [j > 0]
    that is set in this step belongs to a truss whose slot 0 was set in an
    earlier one. *)
Theorem integrate_truss_anthesis (day : date) (o : DVS_Phenology) (dvr : R)
    (dvrf : list (list R)) (i : nat) (row : list (option date)) :
  DVR (rates o) = Some dvr → DVRF (rates o) = Some dvrf →
  capacity (DOEF (states o)) (DOEL (states o)) 0
           (Z.to_nat (py_int (DVS (states o) + dvr))) →
  (Z.of_nat i < py_int (DVS (states o) + dvr))%Z →
  DOEF (states o) !! i = Some row →
  let o' := fst (integrate day o) in
  (∀ d0, row !! 0 = Some (Some d0) →
     (∀ j, 1 ≤ j → row !! j = Some None → (∀ k, 1 ≤ k < j → row !! k ≠ Some None) →
           DOEF (states o') !! i = Some (<[j := Some day]> row))
     ∧ ((∀ j, 1 ≤ j → row !! j ≠ Some None) → DOEF (states o') !! i = Some row))
  ∧ (row !! 0 = Some None →
     DOEF (states o') !! i = Some (<[0 := Some day]> row)
     ∧ (cell (DOEL (states o)) (i + 3) 0 = Some None →
        cell (DOEL (states o')) (i + 3) 0 = Some (Some day)))
  ∧ (∀ j d, 1 ≤ j → row !! j = Some None →
            cell (DOEF (states o')) i j = Some (Some d) →
            d = day ∧ ∃ d0, row !! 0 = Some (Some d0)).
Proof.
  intros Hr Hrf Hcap Hi Hrow o'.
  destruct (integrate_dates day o dvr dvrf Hr Hrf Hcap) as [HF HL].
  fold o' in HF, HL.
  assert (DOEF (states o') !! i = Some (truss_row day row)) as Hrow'.
  { rewrite HF, decide_True by lia. by rewrite Hrow. }
  split; [|split].
  - intros d0 H0. destruct row as [|x tl]; [done|]. injection H0 as ->. simpl in Hrow'.
    split.
    + intros [|j] Hj Hunset Hbefore; [lia|]. rewrite Hrow'. simpl. do 2 f_equal.
      apply fill_first_unset; [done|]. intros k Hk. apply (Hbefore (S k)). lia.
    + intros Hfull. rewrite Hrow'. do 2 f_equal. apply fill_first_full.
      intros j. apply (Hfull (S j)). lia.
  - intros H0. destruct row as [|x tl]; [done|]. injection H0 as ->. split; [done|].
    unfold cell at 1. destruct (DOEL (states o) !! (i + 3)) as [lrow|] eqn:Hlrow; [|done].
    intros Hl0. apply (HL i (None :: tl) lrow); [lia|done|done|].
    destruct lrow as [|y ltl]; [done|]. by injection Hl0 as ->.
  - intros j d Hj Hunset Hset. unfold cell in Hset. rewrite Hrow' in Hset.
    destruct row as [|[d0|] tl]; [done| |].
    + destruct j as [|j]; [lia|]. simpl in *. split; [|by eauto].
      by eapply fill_first_lookup.
    + destruct j as [|j]; [lia|]. simpl in *. congruence.
Qed.

(** ** The step on the sample objects *)

(** No path through [integrate] returns normally. *)
Lemma integrate_always_raises (day : date) (o : DVS_Phenology) :
  snd (integrate day o) ≠ Ok tt.
Proof.
  unfold integrate, bind.
  destruct (commit_rates o) as [o1 [[]|e]]; [|done].
  destruct (anthesis day o1) as [o2 [[]|e]]; [|done].
  unfold get_states. destruct (backfill day o2) as [o3 [[]|e]]; [|done].
  by rewrite current_unit_raises.
Qed.

Ltac eval_integrate o dvr dvrf n1 n2 :=
  rewrite (integrate_assigned _ o dvr dvrf) by done;
  rewrite (commit_rates_assigned o dvr dvrf) by done; simpl;
  unfold anthesis, backfill, bind, get_states; simpl;
  match goal with
  | |- context [py_int ?x] => rewrite (py_int_nonneg x n1) by (lia || lra)
  end; simpl;
  match goal with
  | |- context [py_int ?x] => rewrite (py_int_nonneg x n2) by (lia || lra)
  end;
  reflexivity.

Lemma integrate_o_half :
  integrate 1 o_half
  = (mkObject (mkStates (0 + 0.5) []
                 [[Some 1%Z; Some 1%Z; Some 1%Z]; [Some 1%Z; Some 1%Z; Some 1%Z];
                  [None; None; None]; [None; None; None]] [] [])
              (mkRates (Some 0.5%R) (Some [])) ∅,
     Raise TypeError).
Proof. eval_integrate o_half 0.5%R (@nil (list R)) 0%Z 2%Z. Qed.

Lemma integrate_o_ragged :
  integrate 1 o_ragged
  = (mkObject (mkStates (0 + 0.5) [[(0 + 0 + 1)%R]]
                 [[Some 1%Z; Some 1%Z; Some 1%Z]; [Some 1%Z; Some 1%Z; Some 1%Z];
                  [None; None; None]; [None; None; None]] [] [])
              (mkRates (Some 0.5%R) (Some [[1%R]])) ∅,
     Raise TypeError).
Proof. eval_integrate o_ragged 0.5%R [[1%R]] 0%Z 2%Z. Qed.

Lemma integrate_o_first_truss :
  integrate 1 o_first_truss
  = (mkObject (mkStates (0.5 + 0.6) []
                 [[Some 1%Z; Some 1%Z; Some 1%Z]; [Some 1%Z; Some 1%Z; Some 1%Z];
                  [Some 1%Z; Some 1%Z; Some 1%Z]; [Some 1%Z; None; None]]
                 [[Some 1%Z; None]] [])
              (mkRates (Some 0.6%R) (Some [])) ∅,
     Raise TypeError).
Proof. eval_integrate o_first_truss 0.6%R (@nil (list R)) 1%Z 3%Z. Qed.

(** C4: after a commit that brings [DVS] to 0.5, so that [floor(DVS) + 3 = 3]
    and [nLEAF = 2], the step raises [TypeError] and leaves every slot of
    [DOEL[3]] unset: the index of line 141 is the float [DVS + 3], and lines
    142-147 raise at their first subscript for every object. *)
Theorem integrate_current_unit_untouched :
  snd (integrate 1 o_half) = Raise TypeError
  ∧ py_int (DVS (states (fst (integrate 1 o_half)))) = 0%Z
  ∧ nLEAF_of (DVS (states (fst (integrate 1 o_half)))) = 2%Z
  ∧ DOEL (states o_half) !! 3 = Some [None; None; None]
  ∧ DOEL (states (fst (integrate 1 o_half))) !! 3 = Some [None; None; None]
  ∧ (∀ day nLEAF o, current_unit day nLEAF o = (o, Raise TypeError))
  ∧ (∀ day o, snd (integrate day o) ≠ Ok tt).
Proof.
  rewrite integrate_o_half. simpl. repeat split.
  - apply py_int_nonneg; [lia|lra].
  - rewrite (nLEAF_of_IZR_plus 0 0.5) by lra.
    destruct (Rle_dec (2 / 3) 0.5); [lra|]. destruct (Rle_dec (1 / 3) 0.5); [done|lra].
  - apply integrate_always_raises.
Qed.

(** C7, against the claim as stated: a row of two fruits and a rate row of
    one do not match, yet the commit does not raise and leaves [DVSF] with a
    row of one; the step then raises [TypeError] at line 142, with that row
    kept. *)
Lemma commit_rates_no_ShapeMismatch :
  map length (DVSF (states o_ragged)) = [2]
  ∧ option_map (map length) (DVRF (rates o_ragged)) = Some [1]
  ∧ snd (commit_rates o_ragged) = Ok tt
  ∧ DVSF (states (fst (commit_rates o_ragged))) = [[(0 + 0 + 1)%R]]
  ∧ snd (integrate 1 o_ragged) = Raise TypeError
  ∧ DVSF (states (fst (integrate 1 o_ragged))) = [[(0 + 0 + 1)%R]].
Proof. rewrite integrate_o_ragged. by repeat split. Qed.

Lemma integrate_truss_anthesis_witness :
  DOEF (states o_first_truss) !! 0 = Some [None; None]
  ∧ DOEF (states (fst (integrate 1 o_first_truss))) !! 0 = Some [Some 1%Z; None]
  ∧ cell (DOEL (states (fst (integrate 1 o_first_truss)))) 3 0 = Some (Some 1%Z)
  ∧ DOEF (states o_second_day) !! 0 = Some [Some 1%Z; None]
  ∧ DOEF (states (fst (integrate 2 o_second_day))) !! 0 = Some [Some 1%Z; Some 2%Z].
Proof.
  assert (py_int (DVS (states o_first_truss) + 0.6) = 1%Z) as Hn1
    by (apply py_int_nonneg; simpl; (lia || lra)).
  assert (py_int (DVS (states o_second_day) + 0.6) = 1%Z) as Hn2
    by (apply py_int_nonneg; simpl; (lia || lra)).
  split; [done|].
  destruct (integrate_truss_anthesis 1 o_first_truss 0.6 [] 0 [None; None] eq_refl eq_refl)
    as (_ & Hfirst & _).
  { rewrite Hn1. intros k Hk. assert (k = 0) as -> by lia.
    exists [None; None]. split; [done|]. split; [done|]. intros _.
    by exists [None; None; None]. }
  { rewrite Hn1. lia. }
  { done. }
  destruct (integrate_truss_anthesis 2 o_second_day 0.6 [] 0 [Some 1%Z; None] eq_refl eq_refl)
    as (Hstarted & _ & _).
  { rewrite Hn2. intros k Hk. assert (k = 0) as -> by lia.
    exists [Some 1%Z; None]. split; [done|]. split; [done|]. intros H0. discriminate H0. }
  { rewrite Hn2. lia. }
  { done. }
  destruct (Hfirst eq_refl) as [H1 H2].
  destruct (Hstarted 1%Z eq_refl) as [H3 _].
  split; [exact H1|]. split; [by apply H2|]. split; [done|].
  apply (H3 1); [lia|done|]. intros k Hk. lia.
Defined.

(** A date set on day 1 is still there after a second step, on day 2. *)
Lemma integrate_keeps_dates_witness :
  cell (DOEF (states (fst (integrate 1 o_first_truss)))) 0 0 = Some (Some 1%Z)
  ∧ cell (DOEF (states (run_days [(2%Z, mkRates (Some 0.6%R) (Some []))]
                                (fst (integrate 1 o_first_truss))))) 0 0
    = Some (Some 1%Z).
Proof.
  assert (cell (DOEF (states (fst (integrate 1 o_first_truss)))) 0 0 = Some (Some 1%Z))
    as H1 by (by rewrite integrate_o_first_truss).
  split; [exact H1|].
  exact (proj1 (integrate_keeps_dates [(2%Z, mkRates (Some 0.6%R) (Some []))]
                  (fst (integrate 1 o_first_truss)) 0 0 1%Z) H1).
Defined.

(** ** What a step leaves alone *)

#[local] Instance slot_step_preorder (day : date) : PreOrder (slot_step day).
Proof.
  split.
  - intros [[d|]|]; simpl; auto.
  - intros [[d|]|] y z; simpl.
    + by intros ->.
    + intros [->| ->]; simpl; auto.
    + by intros ->.
Qed.

#[local] Instance day_step_preorder (day : date) : PreOrder (day_step day).
Proof.
  split.
  - intros o. split; intros i j; reflexivity.
  - intros o1 o2 o3 [HF12 HL12] [HF23 HL23]. split; intros i j.
    + by trans (cell (DOEF (states o2)) i j).
    + by trans (cell (DOEL (states o2)) i j).
Qed.

#[local] Instance frame_preorder (n m : nat) : PreOrder (frame n m).
Proof.
  split.
  - intros o. by repeat split.
  - intros o1 o2 o3 (H1 & H2 & H3 & H4 & H5 & H6 & H7 & H8 & H9)
                    (G1 & G2 & G3 & G4 & G5 & G6 & G7 & G8 & G9).
    repeat split; try congruence.
    + intros k Hk. by rewrite G8, H8.
    + intros k Hk. by rewrite G9, H9.
Qed.

Lemma keeps_for_in_elem (Rel : relation DVS_Phenology) `{!PreOrder Rel}
    {A} (xs : list A) (body : A → M unit) :
  (∀ x, x ∈ xs → keeps Rel (body x)) → keeps Rel (for_in xs body).
Proof.
  induction xs as [|x xs IH]; intros Hbody; simpl; [by apply keeps_ret|].
  apply keeps_bind; [done|apply Hbody; left|].
  intros _. apply IH. intros y Hy. apply Hbody. by right.
Qed.

Lemma keeps_for_in_break_elem (Rel : relation DVS_Phenology) `{!PreOrder Rel}
    {A} (xs : list A) (body : A → M bool) :
  (∀ x, x ∈ xs → keeps Rel (body x)) → keeps Rel (for_in_break xs body).
Proof.
  induction xs as [|x xs IH]; intros Hbody; simpl; [by apply keeps_ret|].
  apply keeps_bind; [done|apply Hbody; left|].
  intros [|]; [by apply keeps_ret|]. apply IH. intros y Hy. apply Hbody. by right.
Qed.

Lemma elem_of_py_range_0 (n z : Z) :
  z ∈ py_range 0 n → ∃ k : nat, z = Z.of_nat k ∧ (Z.of_nat k < n)%Z.
Proof.
  rewrite py_range_0. intros (k & -> & Hk)%list_elem_of_fmap.
  apply elem_of_seq in Hk. exists k. split; [done|lia].
Qed.

(** A store at a natural row index keeps the shape of the table and every
    other row. *)
Lemma store_subscript2_frame {A} (l l' : list (list A)) (i : nat) (j : pyidx) (v : A) :
  store_subscript2 l (IInt (Z.of_nat i)) j v = Ok l' →
  length <$> l' = length <$> l ∧ ∀ k, k ≠ i → l' !! k = l !! k.
Proof.
  intros (ki & kj & row & Hki & Hrow & Hkj & ->)%store_subscript2_Ok.
  rewrite norm_index_nat in Hki. case_decide; [|done]. injection Hki as <-.
  split.
  - rewrite list_fmap_insert, length_insert. apply list_insert_id.
    by rewrite list_lookup_fmap, Hrow.
  - intros k Hk. by rewrite list_lookup_insert_ne.
Qed.

Lemma keeps_frame_assign_DOEF (n m i : nat) (j : pyidx) (v : option date) :
  i < n → keeps (frame n m) (assign_DOEF (IInt (Z.of_nat i)) j v).
Proof.
  intros Hi o. unfold assign_DOEF, bind, get_states, lift, modify_states. simpl.
  destruct (store_subscript2 _ _ _ _) as [l'|e] eqn:Hstore; simpl; [|reflexivity].
  apply store_subscript2_frame in Hstore as [Hlen Hrows].
  repeat split; simpl; try done. intros k Hk. apply Hrows. lia.
Qed.

Lemma keeps_frame_assign_DOEL (n m i : nat) (j : pyidx) (v : option date) :
  i < m → keeps (frame n m) (assign_DOEL (IInt (Z.of_nat i)) j v).
Proof.
  intros Hi o. unfold assign_DOEL, bind, get_states, lift, modify_states. simpl.
  destruct (store_subscript2 _ _ _ _) as [l'|e] eqn:Hstore; simpl; [|reflexivity].
  apply store_subscript2_frame in Hstore as [Hlen Hrows].
  repeat split; simpl; try done. intros k Hk. apply Hrows. lia.
Qed.

Lemma keeps_read_DOEF (Rel : relation DVS_Phenology) `{!PreOrder Rel} (i j : pyidx) :
  keeps Rel (read_DOEF i j).
Proof.
  unfold read_DOEF. apply keeps_bind; [done|by apply keeps_get_states|].
  intros s. by apply keeps_lift.
Qed.

Lemma keeps_read_DOEL (Rel : relation DVS_Phenology) `{!PreOrder Rel} (i j : pyidx) :
  keeps Rel (read_DOEL i j).
Proof.
  unfold read_DOEL. apply keeps_bind; [done|by apply keeps_get_states|].
  intros s. by apply keeps_lift.
Qed.

Lemma keeps_frame_truss_step (day : date) (n m i : nat) :
  i < n → i + 3 < m → keeps (frame n m) (truss_step day (Z.of_nat i)).
Proof.
  intros Hi Hm. unfold truss_step.
  apply keeps_bind; [apply _|apply keeps_read_DOEF; apply _|]. intros x.
  destruct (negb (unset x)).
  - apply keeps_bind; [apply _|apply keeps_len_DOEF; apply _|]. intros len.
    apply keeps_for_in_break; [apply _|]. intros j.
    apply keeps_bind; [apply _|apply keeps_read_DOEF; apply _|]. intros y.
    destruct (negb (unset y)); [apply keeps_ret; apply _|].
    apply keeps_bind; [apply _|by apply keeps_frame_assign_DOEF|].
    intros _. apply keeps_ret; apply _.
  - apply keeps_bind; [apply _|by apply keeps_frame_assign_DOEF|]. intros _.
    replace (Z.of_nat i + 3)%Z with (Z.of_nat (i + 3)) by lia.
    apply keeps_bind; [apply _|apply keeps_read_DOEL; apply _|]. intros z.
    apply keeps_when; [apply _|]. by apply keeps_frame_assign_DOEL.
Qed.

Lemma bind_get_states {A} (k : StateVariables → M A) (o : DVS_Phenology) :
  (let* s := get_states in k s) o = k (states o) o.
Proof. reflexivity. Qed.

(** The anthesis loop and the back-fill, from the object they start on: the
    trusses from [int(DVS)] on and the units from [int(DVS) + 3] and
    [int(DVS + 2)] on are not touched. *)
Lemma frame_anthesis (day : date) (o : DVS_Phenology) (m : nat) :
  Z.to_nat (py_int (DVS (states o))) + 3 ≤ m →
  frame (Z.to_nat (py_int (DVS (states o)))) m o (fst (anthesis day o)).
Proof.
  intros Hm. unfold anthesis. rewrite bind_get_states.
  set (n := Z.to_nat (py_int (DVS (states o)))) in *.
  refine (keeps_for_in_elem (frame n m) _ _ _ o).
  intros z (k & -> & Hk)%elem_of_py_range_0.
  apply keeps_frame_truss_step; lia.
Qed.

Lemma frame_backfill (day : date) (o : DVS_Phenology) (n m : nat) :
  Z.to_nat (py_int (DVS (states o) + 2)) ≤ m →
  frame n m o (fst (backfill day o)).
Proof.
  intros Hm. unfold backfill. rewrite bind_get_states.
  refine (keeps_for_in_elem (frame n m) _ _ _ o).
  intros z (k & -> & Hk)%elem_of_py_range_0.
  apply keeps_for_in; [apply _|]. intros j.
  apply keeps_bind; [apply _|apply keeps_read_DOEL; apply _|]. intros x.
  apply keeps_when; [apply _|]. apply keeps_frame_assign_DOEL. lia.
Qed.

Lemma py_int_plus_2 (x : R) : (py_int (x + 2) ≤ py_int x + 2)%Z.
Proof.
  unfold py_int. destruct (Rle_dec 0 x) as [Hx|Hx]; destruct (Rle_dec 0 (x + 2)) as [Hx2|Hx2];
    try lra.
  - rewrite (Zfloor_addz 2). lia.
  - rewrite <- (Zceil_addz 2). apply le_IZR.
    pose proof (Zfloor_ceil_bound (x + 2)). lra.
  - rewrite (Zceil_addz 2). lia.
Qed.

(** The commit touches the two stages only. *)
Lemma commit_rates_frame (o : DVS_Phenology) :
  DOEF (states (fst (commit_rates o))) = DOEF (states o)
  ∧ DOEL (states (fst (commit_rates o))) = DOEL (states o)
  ∧ DOHF (states (fst (commit_rates o))) = DOHF (states o)
  ∧ rates (fst (commit_rates o)) = rates o
  ∧ _for_finalize (fst (commit_rates o)) = _for_finalize o.
Proof.
  unfold commit_rates, bind, get_rates, get_states, lift, float_operand, iterable. simpl.
  destruct (DVR (rates o)); simpl; [|done]. by destruct (DVRF (rates o)).
Qed.

(** The stage after the commit, whether it raised or not: [DVS] has moved by
    [DVR] once that is assigned. *)
Lemma commit_rates_DVS (o : DVS_Phenology) :
  DVS (states (fst (commit_rates o)))
  = (DVS (states o) + default 0%R (DVR (rates o)))%R.
Proof.
  unfold commit_rates, bind, get_rates, get_states, lift, float_operand, iterable. simpl.
  destruct (DVR (rates o)); simpl; [|lra]. by destruct (DVRF (rates o)).
Qed.

(** From the committed object on, a step is framed by the committed [DVS]. *)
Lemma frame_integrate (day : date) (o : DVS_Phenology) :
  let o1 := fst (commit_rates o) in
  let n := Z.to_nat (py_int (DVS (states o1))) in
  frame n (n + 3) o1 (fst (integrate day o)).
Proof.
  intros o1 n. unfold integrate, bind at 1. fold o1.
  destruct (commit_rates o) as [o1' [[]|e]] eqn:Hc; simpl in o1; subst o1;
    [|reflexivity].
  pose proof (frame_anthesis day o1' (n + 3)) as Ha. fold n in Ha.
  specialize (Ha (Nat.le_refl _)).
  unfold bind at 1. destruct (anthesis day o1') as [o2 [[]|e]]; simpl in *; [|done].
  rewrite bind_get_states. unfold bind at 1.
  assert (frame n (n + 3) o2 (fst (backfill day o2))) as Hb.
  { apply frame_backfill. destruct Ha as (-> & _).
    pose proof (py_int_plus_2 (DVS (states o1'))). lia. }
  destruct (backfill day o2) as [o3 [[]|e]]; simpl in Hb; [|by etrans].
  rewrite current_unit_raises. simpl. by etrans.
Qed.

(** X1: over any run of steps, whatever they raise, the two date tables keep
    their number of rows and the length of every row, and [DOHF] and the
    finalisation record are as before; a single step leaves the rate
    variables as they were. *)
Theorem integrate_keeps_shape (steps : list (date * RateVariables)) (o : DVS_Phenology) :
  length <$> DOEF (states (run_days steps o)) = length <$> DOEF (states o)
  ∧ length <$> DOEL (states (run_days steps o)) = length <$> DOEL (states o)
  ∧ DOHF (states (run_days steps o)) = DOHF (states o)
  ∧ _for_finalize (run_days steps o) = _for_finalize o
  ∧ ∀ day, rates (fst (integrate day o)) = rates o.
Proof.
  split; [|split; [|split; [|split]]].
  5: { intros day. destruct (frame_integrate day o) as (_ & _ & _ & -> & _).
       apply commit_rates_frame. }
  all: revert o; induction steps as [|[day r] steps IH]; intros o; simpl; [done|];
    rewrite IH;
    destruct (frame_integrate day (with_rates r o)) as (_ & _ & H3 & _ & H5 & H6 & H7 & _);
    destruct (commit_rates_frame (with_rates r o)) as (G1 & G2 & G3 & _ & G5).
  - by rewrite H6, G1.
  - by rewrite H7, G2.
  - by rewrite H3, G3.
  - by rewrite H5, G5.
Qed.

(** X2: a step does not touch the trusses from [int(DVS)] on, nor the
    vegetative units from [int(DVS) + 3] on, [DVS] being the committed
    stage. *)
Theorem integrate_untouched_rows (day : date) (o : DVS_Phenology) (k : nat) :
  let n := Z.to_nat (py_int (DVS (states o) + default 0%R (DVR (rates o)))) in
  let o' := fst (integrate day o) in
  (n ≤ k → DOEF (states o') !! k = DOEF (states o) !! k)
  ∧ (n + 3 ≤ k → DOEL (states o') !! k = DOEL (states o) !! k).
Proof.
  intros n o'. subst n o'.
  destruct (frame_integrate day o) as (_ & _ & _ & _ & _ & _ & _ & HF & HL).
  destruct (commit_rates_frame o) as (G1 & G2 & _).
  rewrite commit_rates_DVS in HF, HL. split; intros Hk.
  - rewrite HF by done. by rewrite G1.
  - rewrite HL by done. by rewrite G2.
Qed.

(** X3: [DVS] accumulates the [DVR] of every step of a run that has one,
    whatever the steps raise; it is not clamped. *)
Theorem run_days_accumulates_DVS (steps : list (date * RateVariables)) (o : DVS_Phenology) :
  DVS (states (run_days steps o))
  = fold_left (λ dvs step, dvs + default 0 (DVR (snd step)))%R steps (DVS (states o)).
Proof.
  revert o. induction steps as [|[day r] steps IH]; intros o; simpl; [done|].
  rewrite IH. f_equal.
  destruct (frame_integrate day (with_rates r o)) as (-> & _).
  by rewrite commit_rates_DVS.
Qed.

(** ** What a step writes *)

(** A write of [day] to a slot that was read as unset is a step of every slot
    of the table. *)
Lemma guarded_store_step (day : date) (l l' : list (list (option date))) (i j : pyidx) :
  subscript2 l i j = Ok None → store_subscript2 l i j (Some day) = Ok l' →
  ∀ a b, slot_step day (cell l a b) (cell l' a b).
Proof.
  intros Hread Hwrite a b.
  apply subscript2_Ok in Hread as (ki & kj & row & Hki & Hrow & Hkj & Hslot).
  apply store_subscript2_Ok in Hwrite as (ki' & kj' & row' & Hki' & Hrow' & Hkj' & ->).
  rewrite Hki in Hki'. injection Hki' as <-.
  rewrite Hrow in Hrow'. injection Hrow' as <-.
  rewrite Hkj in Hkj'. injection Hkj' as <-.
  rewrite cell_insert_row by done. case_decide as Hd; [|reflexivity].
  destruct Hd as (-> & -> & _). unfold cell. rewrite Hrow, Hslot. simpl. by right.
Qed.

Lemma keeps_step_guarded_DOEL (day : date) (i j : pyidx) :
  keeps (day_step day)
        (let* x := read_DOEL i j in when (unset x) (assign_DOEL i j (Some day))).
Proof.
  intros o. unfold bind, read_DOEL, assign_DOEL, get_states, lift, when, bind. simpl.
  destruct (subscript2 (DOEL (states o)) i j) as [[d|]|e] eqn:Hread; simpl;
    try reflexivity.
  destruct (store_subscript2 (DOEL (states o)) i j (Some day)) as [l'|e] eqn:Hwrite; simpl;
    [|reflexivity].
  split; simpl; [intros a b; reflexivity|].
  by apply (guarded_store_step day _ _ i j).
Qed.

Lemma keeps_step_read_assign_DOEF {B} (day : date) (i j : pyidx) (k1 k2 : M B) :
  keeps (day_step day) k1 → keeps (day_step day) k2 →
  keeps (day_step day) (let* y := read_DOEF i j in
                        if negb (unset y) then k1 else assign_DOEF i j (Some day) >> k2).
Proof.
  intros Hk1 Hk2 o. unfold bind at 1. unfold read_DOEF, get_states, lift, bind at 1. simpl.
  destruct (subscript2 (DOEF (states o)) i j) as [[d|]|e] eqn:Hread; simpl;
    [apply Hk1| |reflexivity].
  unfold bind at 1. unfold assign_DOEF, bind, get_states, lift. simpl.
  destruct (store_subscript2 (DOEF (states o)) i j (Some day)) as [l'|e] eqn:Hwrite; simpl;
    [|reflexivity].
  etrans; [|apply Hk2].
  split; simpl; [|intros a b; reflexivity].
  by apply (guarded_store_step day _ _ i j).
Qed.

Lemma keeps_step_truss_step (day : date) (i : Z) : keeps (day_step day) (truss_step day i).
Proof.
  unfold truss_step. apply keeps_step_read_assign_DOEF.
  - apply keeps_bind; [apply _|apply keeps_len_DOEF; apply _|].
    intros n. apply keeps_for_in_break; [apply _|]. intros j.
    apply (keeps_step_read_assign_DOEF day (IInt i) (IInt j) (ret false) (ret true));
      apply keeps_ret; apply _.
  - apply keeps_step_guarded_DOEL.
Qed.

Lemma keeps_step_anthesis (day : date) : keeps (day_step day) (anthesis day).
Proof.
  unfold anthesis. apply keeps_bind; [apply _|apply keeps_get_states; apply _|].
  intros s. apply keeps_for_in; [apply _|]. apply keeps_step_truss_step.
Qed.

Lemma keeps_step_backfill (day : date) : keeps (day_step day) (backfill day).
Proof.
  unfold backfill. apply keeps_bind; [apply _|apply keeps_get_states; apply _|].
  intros s. apply keeps_for_in; [apply _|]. intros i.
  apply keeps_for_in; [apply _|]. intros j. apply keeps_step_guarded_DOEL.
Qed.

Lemma keeps_step_integrate (day : date) : keeps (day_step day) (integrate day).
Proof.
  unfold integrate.
  apply keeps_bind; [apply _| |].
  { intros o. destruct (commit_rates_frame o) as (HF & HL & _).
    split; intros i j; [rewrite HF|rewrite HL]; reflexivity. }
  intros _. apply keeps_bind; [apply _|apply keeps_step_anthesis|]. intros _.
  apply keeps_bind; [apply _|apply keeps_get_states; apply _|]. intros s.
  apply keeps_bind; [apply _|apply keeps_step_backfill|].
  intros _. apply keeps_current_unit. apply _.
Qed.

(** X4: whatever a step raises, a slot of [DOEF] or [DOEL] that it finds unset
    and leaves set holds the day of the step, and a slot that does not exist
    before the step does not exist after it. *)
Theorem integrate_writes_the_day (day : date) (o : DVS_Phenology) (i j : nat) :
  let o' := fst (integrate day o) in
  (∀ d, cell (DOEF (states o)) i j = Some None →
        cell (DOEF (states o')) i j = Some (Some d) → d = day)
  ∧ (∀ d, cell (DOEL (states o)) i j = Some None →
          cell (DOEL (states o')) i j = Some (Some d) → d = day)
  ∧ (cell (DOEF (states o)) i j = None → cell (DOEF (states o')) i j = None)
  ∧ (cell (DOEL (states o)) i j = None → cell (DOEL (states o')) i j = None).
Proof.
  intros o'. destruct (keeps_step_integrate day o) as [HF HL]. fold o' in HF, HL.
  specialize (HF i j). specialize (HL i j). unfold slot_step in HF, HL.
  repeat split.
  - intros d H0 H1. rewrite H0 in HF. destruct HF as [HF|HF]; congruence.
  - intros d H0 H1. rewrite H0 in HL. destruct HL as [HL|HL]; congruence.
  - intros H0. by rewrite H0 in HF.
  - intros H0. by rewrite H0 in HL.
Qed.

(** Two tables of one shape with the same slots are the same table. *)
Lemma table_ext {A} (T T' : list (list A)) :
  length <$> T' = length <$> T → (∀ i j, cell T' i j = cell T i j) → T' = T.
Proof.
  intros Hshape Hcell. apply list_eq. intros i.
  assert (length <$> T' !! i = length <$> T !! i) as Hi
    by (by rewrite <- !list_lookup_fmap, Hshape).
  specialize (Hcell i). unfold cell in Hcell.
  destruct (T' !! i) as [row'|], (T !! i) as [row|]; simpl in *; try done.
  f_equal. injection Hi as Hi. apply list_eq. intros j. specialize (Hcell j).
  done.
Qed.

(** X5: a date table without an unset slot is left as it is by any run of
    steps: once every flower of every truss has its date, [DOEF] is final,
    and likewise [DOEL]. *)
Theorem run_days_full_table_final (steps : list (date * RateVariables)) (o : DVS_Phenology) :
  ((∀ i j, cell (DOEF (states o)) i j ≠ Some None) →
   DOEF (states (run_days steps o)) = DOEF (states o))
  ∧ ((∀ i j, cell (DOEL (states o)) i j ≠ Some None) →
     DOEL (states (run_days steps o)) = DOEL (states o)).
Proof.
  revert o. induction steps as [|[day r] steps IH]; intros o; simpl; [done|].
  set (o1 := fst (integrate day (with_rates r o))).
  destruct (keeps_step_integrate day (with_rates r o)) as [HF HL]. fold o1 in HF, HL.
  destruct (frame_integrate day (with_rates r o)) as (_ & _ & _ & _ & _ & SF & SL & _).
  fold o1 in SF, SL.
  destruct (commit_rates_frame (with_rates r o)) as (GF & GL & _).
  rewrite GF in SF. rewrite GL in SL. simpl in *.
  split; intros Hfull.
  - assert (DOEF (states o1) = DOEF (states o)) as Heq.
    { apply table_ext; [done|]. intros i j. specialize (HF i j). specialize (Hfull i j).
      unfold slot_step in HF. by destruct (cell (DOEF (states o)) i j) as [[d|]|]. }
    rewrite <- Heq. apply IH. by rewrite Heq.
  - assert (DOEL (states o1) = DOEL (states o)) as Heq.
    { apply table_ext; [done|]. intros i j. specialize (HL i j). specialize (Hfull i j).
      unfold slot_step in HL. by destruct (cell (DOEL (states o)) i j) as [[d|]|]. }
    rewrite <- Heq. apply IH. by rewrite Heq.
Qed.

(** ** Sequences of calls *)

Lemma invoke_unassigned (c : method) (o : DVS_Phenology) :
  DVR (rates o) = None →
  states (fst (invoke c o)) = states o ∧ rates (fst (invoke c o)) = rates o.
Proof.
  intros Hr. destruct c as [day T|day|day tag]; simpl.
  - done.
  - unfold integrate, bind at 1.
    unfold commit_rates, bind, get_rates, get_states, lift, float_operand. simpl.
    by rewrite Hr.
  - unfold _on_CROP_FINISH, when. by case_bool_decide.
Qed.

Lemma integrate_unassigned (day : date) (o : DVS_Phenology) :
  DVR (rates o) = None → integrate day o = (o, Raise TypeError).
Proof.
  intros Hr. unfold integrate, bind at 1.
  unfold commit_rates, bind, get_rates, get_states, lift, float_operand. simpl.
  by rewrite Hr.
Qed.

(** X6: on an object whose [DVR] is unassigned, as [initialize] leaves it, no
    sequence of calls of [calc_rates], [integrate] and the finish handler
    changes a state or rate variable, and after any such sequence
    [calc_rates] and [integrate] still raise [TypeError]: the simulation
    cannot advance. *)
Theorem unassigned_rates_never_advance (cs : list method) (o : DVS_Phenology) :
  DVR (rates o) = None →
  states (invoke_all cs o) = states o
  ∧ rates (invoke_all cs o) = rates o
  ∧ (∀ day T, snd (calc_rates day T (invoke_all cs o)) = Raise TypeError)
  ∧ (∀ day, snd (integrate day (invoke_all cs o)) = Raise TypeError).
Proof.
  intros Hr.
  assert (states (invoke_all cs o) = states o ∧ rates (invoke_all cs o) = rates o)
    as [Hs Hrates].
  { revert o Hr. induction cs as [|c cs IH]; intros o Hr; simpl; [done|].
    destruct (invoke_unassigned c o Hr) as [Hs Hrates].
    destruct (IH (fst (invoke c o))) as [IHs IHr]; [by rewrite Hrates|].
    split; congruence. }
  split; [done|]. split; [done|]. split; [done|].
  intros day. rewrite integrate_unassigned; [done|]. by rewrite Hrates.
Qed.

Lemma unassigned_rates_never_advance_witness :
  let cs := [CalcRates 1 20; Integrate 1; CropFinish 1 None;
             CalcRates 2 20; Integrate 2; CropFinish 2 (Some "harvest")] in
  states (invoke_all cs o_initial) = states o_initial
  ∧ rates (invoke_all cs o_initial) = mkRates None None
  ∧ snd (integrate 3 (invoke_all cs o_initial)) = Raise TypeError.
Proof.
  intros cs.
  destruct (unassigned_rates_never_advance cs o_initial eq_refl) as (H1 & H2 & _ & H4).
  split; [exact H1|]. split; [exact H2|]. apply H4.
Defined.

(** X7: with [DVR] assigned and [DVRF] still unassigned, a step raises
    [TypeError] after it has added [DVR] to [DVS]: everything else is as
    before, and the stage has moved. *)
Theorem integrate_partial_commit (day : date) (o : DVS_Phenology) (dvr : R) :
  DVR (rates o) = Some dvr → DVRF (rates o) = None →
  integrate day o
  = (mkObject (set_DVS (DVS (states o) + dvr) (states o)) (rates o) (_for_finalize o),
     Raise TypeError).
Proof.
  intros Hr Hrf. unfold integrate, bind at 1.
  unfold commit_rates, bind, get_rates, get_states, lift, float_operand, iterable,
    modify_states. simpl.
  by rewrite Hr, Hrf.
Qed.

Lemma integrate_partial_commit_witness :
  let o := with_rates (mkRates (Some 0.5%R) None) o_initial in
  snd (integrate 1 o) = Raise TypeError
  ∧ DVS (states (fst (integrate 1 o))) = (0 + 0.5)%R
  ∧ DVSF (states (fst (integrate 1 o))) = DVSF (states o).
Proof.
  intros o.
  rewrite (integrate_partial_commit 1 o 0.5 eq_refl eq_refl). by repeat split.
Defined.

(** X8: after any sequence of calls, the day recorded under ["DOH"] is the day
    of the last notification tagged [harvest] or [earliest] among them, or
    what was recorded before when there is none; [calc_rates] and
    [integrate] never touch it. *)
Theorem DOH_is_last_finish (cs : list method) (o : DVS_Phenology) :
  _for_finalize (invoke_all cs o) !! "DOH"
  = match last_finish (notifications cs) with
    | Some day => Some day
    | None => _for_finalize o !! "DOH"
    end.
Proof.
  revert o. induction cs as [|c cs IH]; intros o; [done|].
  simpl. rewrite IH. destruct c as [day T|day|day tag]; simpl.
  - done.
  - destruct (frame_integrate day o) as (_ & _ & _ & _ & -> & _).
    destruct (commit_rates_frame o) as (_ & _ & _ & _ & ->). done.
  - unfold notifications. simpl. fold (notifications cs).
    destruct (last_finish (notifications cs)) as [d|]; [done|].
    unfold _on_CROP_FINISH, when. case_bool_decide; simpl; [|done].
    apply lookup_insert_eq.
Qed.

(** ** Tables that are too small *)

Lemma for_in_app {A} (xs ys : list A) (body : A → M unit) (o : DVS_Phenology) :
  for_in (xs ++ ys) body o
  = match for_in xs body o with
    | (o', Ok _) => for_in ys body o'
    | (o', Raise e) => (o', Raise e)
    end.
Proof.
  revert o. induction xs as [|x xs IH]; intros o; simpl; [done|].
  unfold bind. destruct (body x o) as [o1 [[]|e]]; [apply IH|done].
Qed.

Lemma for_in_cons {A} (x : A) (xs : list A) (body : A → M unit) (o : DVS_Phenology) :
  for_in (x :: xs) body o
  = match body x o with
    | (o', Ok _) => for_in xs body o'
    | (o', Raise e) => (o', Raise e)
    end.
Proof. reflexivity. Qed.

(** A truss without a first slot: its row is missing or empty. *)
Lemma truss_step_no_slot (day : date) (k : nat) (o : DVS_Phenology) :
  cell (DOEF (states o)) k 0 = None →
  truss_step day (Z.of_nat k) o = (o, Raise IndexError).
Proof.
  intros Hcell. unfold truss_step.
  unfold bind at 1. unfold read_DOEF, bind at 1, get_states, lift. simpl.
  change (IInt 0) with (IInt (Z.of_nat 0)).
  by rewrite subscript2_nat, Hcell.
Qed.

(** A truss that has not started, whose unit three ahead has no first slot:
    the first anthesis is recorded before the subscript of [DOEL] raises. *)
Lemma truss_step_no_lead (day : date) (k : nat) (tl : list (option date))
    (o : DVS_Phenology) :
  DOEF (states o) !! k = Some (None :: tl) →
  cell (DOEL (states o)) (k + 3) 0 = None →
  truss_step day (Z.of_nat k) o
  = (with_dates (<[k := Some day :: tl]> (DOEF (states o))) (DOEL (states o)) o,
     Raise IndexError).
Proof.
  intros Hrow Hlead. unfold truss_step.
  unfold bind at 1. unfold read_DOEF, bind at 1, get_states, lift. simpl.
  change (IInt 0) with (IInt (Z.of_nat 0)).
  rewrite subscript2_nat. unfold cell at 1. rewrite Hrow. simpl.
  unfold bind at 1. unfold assign_DOEF, bind at 1, bind at 1, get_states, lift. simpl.
  rewrite (store_subscript2_nat _ _ _ _ (None :: tl)); [|done|simpl; lia].
  simpl. unfold bind at 1. unfold read_DOEL, bind at 1, get_states, lift. simpl.
  replace (Z.of_nat k + 3)%Z with (Z.of_nat (k + 3)) by lia.
  by rewrite subscript2_nat, Hlead.
Qed.

(** The loop up to a truss [k] below [n], the trusses before it being within
    capacity. *)
Lemma anthesis_prefix (day : date) (n k : nat) (o : DVS_Phenology) :
  k < n → capacity (DOEF (states o)) (DOEL (states o)) 0 k →
  ∃ F' L',
    (∀ i, F' !! i = if decide (i < k) then truss_row day <$> DOEF (states o) !! i
                    else DOEF (states o) !! i)
    ∧ (∀ j, k + 3 ≤ j → L' !! j = DOEL (states o) !! j)
    ∧ for_in (Z.of_nat <$> seq 0 n) (truss_step day) o
      = match truss_step day (Z.of_nat k) (with_dates F' L' o) with
        | (o', Ok _) => for_in (Z.of_nat <$> seq (S k) (n - S k)) (truss_step day) o'
        | (o', Raise e) => (o', Raise e)
        end.
Proof.
  intros Hk Hcap.
  destruct (anthesis_loop day k 0 o Hcap) as (F' & L' & Hrun & HF & _ & HLout).
  exists F', L'. split; [|split].
  - intros i. rewrite HF. repeat case_decide; done || lia.
  - intros j Hj. apply HLout. lia.
  - replace n with (k + S (n - S k)) at 1 by lia.
    rewrite seq_app, fmap_app, for_in_app, Hrun. simpl. unfold bind.
    by destruct (truss_step day (Z.of_nat k) (with_dates F' L' o)) as [o' [[]|e]].
Qed.

(** X9: when a truss [k] below [int(DVS)] has no first slot, its row of [DOEF]
    missing or empty, and the trusses before it are within capacity, the step
    raises [IndexError]; by then [DVS] has moved, the trusses before [k] have
    had their day, and the other rows of [DOEF] are as before. *)
Theorem integrate_DOEF_too_small (day : date) (o : DVS_Phenology) (dvr : R)
    (dvrf : list (list R)) (k : nat) :
  DVR (rates o) = Some dvr → DVRF (rates o) = Some dvrf →
  (Z.of_nat k < py_int (DVS (states o) + dvr))%Z →
  capacity (DOEF (states o)) (DOEL (states o)) 0 k →
  cell (DOEF (states o)) k 0 = None →
  let o' := fst (integrate day o) in
  snd (integrate day o) = Raise IndexError
  ∧ DVS (states o') = (DVS (states o) + dvr)%R
  ∧ (∀ i, DOEF (states o') !! i
          = if decide (i < k) then truss_row day <$> DOEF (states o) !! i
            else DOEF (states o) !! i).
Proof.
  intros Hr Hrf Hk Hcap Hcell o'. subst o'.
  rewrite (integrate_assigned day o dvr dvrf) by done.
  rewrite (commit_rates_assigned o dvr dvrf) by done. simpl.
  set (o1 := mkObject _ _ _).
  unfold anthesis. rewrite bind_get_states, py_range_0.
  destruct (anthesis_prefix day (Z.to_nat (py_int (DVS (states o1)))) k o1)
    as (F' & L' & HF & _ & ->); [simpl; lia|done|].
  rewrite truss_step_no_slot.
  - by repeat split.
  - simpl. unfold cell. rewrite HF, decide_False by lia. exact Hcell.
Qed.

Lemma integrate_DOEF_too_small_witness :
  let o := mkObject (mkStates 0.5 [] (unset_table 4 3) [] []) (mkRates (Some 0.6%R) (Some [])) ∅ in
  snd (integrate 1 o) = Raise IndexError
  ∧ DVS (states (fst (integrate 1 o))) = (0.5 + 0.6)%R.
Proof.
  intros o.
  destruct (integrate_DOEF_too_small 1 o 0.6 [] 0 eq_refl eq_refl) as (H1 & H2 & _).
  - rewrite (py_int_nonneg _ 1); simpl; lia || lra.
  - intros i Hi. lia.
  - done.
  - split; [exact H1|exact H2].
Defined.

(** X10: when a truss [k] below [int(DVS)] has not started and the vegetative
    unit [k + 3] has no first slot, its row of [DOEL] missing or empty, the
    trusses before [k] being within capacity, the step raises [IndexError]
    after it has recorded the first anthesis in [DOEF[k][0]]. *)
Theorem integrate_DOEL_too_small (day : date) (o : DVS_Phenology) (dvr : R)
    (dvrf : list (list R)) (k : nat) (tl : list (option date)) :
  DVR (rates o) = Some dvr → DVRF (rates o) = Some dvrf →
  (Z.of_nat k < py_int (DVS (states o) + dvr))%Z →
  capacity (DOEF (states o)) (DOEL (states o)) 0 k →
  DOEF (states o) !! k = Some (None :: tl) →
  cell (DOEL (states o)) (k + 3) 0 = None →
  let o' := fst (integrate day o) in
  snd (integrate day o) = Raise IndexError
  ∧ DOEF (states o') !! k = Some (Some day :: tl)
  ∧ DOEL (states o') !! (k + 3) = DOEL (states o) !! (k + 3).
Proof.
  intros Hr Hrf Hk Hcap Hrow Hlead o'. subst o'.
  rewrite (integrate_assigned day o dvr dvrf) by done.
  rewrite (commit_rates_assigned o dvr dvrf) by done. simpl.
  set (o1 := mkObject _ _ _).
  unfold anthesis. rewrite bind_get_states, py_range_0.
  destruct (anthesis_prefix day (Z.to_nat (py_int (DVS (states o1)))) k o1)
    as (F' & L' & HF & HL & ->); [simpl; lia|done|].
  rewrite (truss_step_no_lead day k tl).
  - simpl. split; [done|]. split.
    + apply list_lookup_insert_eq. apply lookup_lt_is_Some.
      rewrite HF, decide_False by lia. simpl. by rewrite Hrow.
    + apply HL. lia.
  - simpl. rewrite HF, decide_False by lia. exact Hrow.
  - simpl. unfold cell. rewrite HL by lia. exact Hlead.
Qed.

Lemma integrate_DOEL_too_small_witness :
  let o := mkObject (mkStates 0.5 [] (unset_table 3 3) (unset_table 1 2) [])
                    (mkRates (Some 0.6%R) (Some [])) ∅ in
  snd (integrate 1 o) = Raise IndexError
  ∧ DOEF (states (fst (integrate 1 o))) !! 0 = Some [Some 1%Z; None].
Proof.
  intros o.
  destruct (integrate_DOEL_too_small 1 o 0.6 [] 0 [None] eq_refl eq_refl) as (H1 & H2 & _).
  - rewrite (py_int_nonneg _ 1); simpl; lia || lra.
  - intros i Hi. lia.
  - done.
  - done.
  - split; [exact H1|exact H2].
Defined.

(** ** The back-fill *)

Lemma slot_step_is_Some (day : date) (x y : option (option date)) :
  slot_step day x y → is_Some x → is_Some y.
Proof. destruct x as [[d|]|]; simpl; [intros ->|intros [->| ->]|intros _ [? [=]]]; eauto. Qed.

Lemma slot_step_set (day : date) (x y : option (option date)) :
  slot_step day x y → (∃ d, x = Some (Some d)) → ∃ d, y = Some (Some d).
Proof. intros H [d ->]. simpl in H. eauto. Qed.

(** One guarded write of the back-fill, on a slot that exists. *)
Lemma backfill_slot (day : date) (i j : nat) (o : DVS_Phenology) :
  is_Some (cell (DOEL (states o)) i j) →
  ∃ o', (let* x := read_DOEL (IInt (Z.of_nat i)) (IInt (Z.of_nat j)) in
         when (unset x) (assign_DOEL (IInt (Z.of_nat i)) (IInt (Z.of_nat j)) (Some day))) o
        = (o', Ok tt)
        ∧ day_step day o o'
        ∧ ∃ d, cell (DOEL (states o')) i j = Some (Some d).
Proof.
  intros [x Hx].
  pose proof (keeps_step_guarded_DOEL day (IInt (Z.of_nat i)) (IInt (Z.of_nat j)) o) as Hstep.
  assert (∃ o', (let* x := read_DOEL (IInt (Z.of_nat i)) (IInt (Z.of_nat j)) in
                 when (unset x)
                      (assign_DOEL (IInt (Z.of_nat i)) (IInt (Z.of_nat j)) (Some day))) o
                = (o', Ok tt)
                ∧ ∃ d, cell (DOEL (states o')) i j = Some (Some d)) as (o' & Hrun & Hset).
  { unfold bind at 1. unfold read_DOEL, bind at 1, get_states, lift. simpl.
    rewrite subscript2_nat, Hx. unfold when, ret. destruct x as [d|]; simpl.
    { exists o. split; [reflexivity|]. exists d. exact Hx. }
    unfold cell in Hx. destruct (DOEL (states o) !! i) as [row|] eqn:Hrow; [|done].
    unfold assign_DOEL, bind, get_states, lift. simpl.
    rewrite (store_subscript2_nat _ _ _ _ row); [|done|by eapply lookup_lt_Some].
    simpl. eexists. split; [done|]. simpl.
    exists day. rewrite cell_insert_row by done. rewrite decide_True; [done|].
    split; [done|]. split; [done|]. by eapply lookup_lt_Some. }
  exists o'. rewrite Hrun in Hstep. simpl in Hstep. split; [done|]. split; [done|exact Hset].
Qed.

Lemma backfill_row (day : date) (i : nat) (js : list nat) :
  ∀ o, (∀ j, j ∈ js → is_Some (cell (DOEL (states o)) i j)) →
       ∃ o', for_in (Z.of_nat <$> js)
               (λ j, let* x := read_DOEL (IInt (Z.of_nat i)) (IInt j) in
                     when (unset x) (assign_DOEL (IInt (Z.of_nat i)) (IInt j) (Some day))) o
             = (o', Ok tt)
             ∧ day_step day o o'
             ∧ ∀ j, j ∈ js → ∃ d, cell (DOEL (states o')) i j = Some (Some d).
Proof.
  induction js as [|j js IH]; intros o Hslots.
  - exists o. split; [done|]. split; [reflexivity|]. intros j Hj. by apply elem_of_nil in Hj.
  - destruct (backfill_slot day i j o) as (o1 & Hrun1 & Hstep1 & Hset1);
      [apply Hslots; left|].
    destruct (IH o1) as (o' & Hrun & Hstep & Hset).
    { intros j' Hj'. eapply slot_step_is_Some; [apply Hstep1|]. apply Hslots. by right. }
    exists o'. split; [|split].
    + rewrite fmap_cons, for_in_cons. cbv beta. by rewrite Hrun1.
    + by etrans.
    + intros j' [->|Hj']%elem_of_cons; [|by apply Hset].
      eapply slot_step_set; [apply Hstep|done].
Qed.

Lemma backfill_rows (day : date) (us : list nat) :
  ∀ o, (∀ i j, i ∈ us → j < 3 → is_Some (cell (DOEL (states o)) i j)) →
       ∃ o', for_in (Z.of_nat <$> us)
               (λ i, for_in (py_range 0 3) (λ j,
                  let* x := read_DOEL (IInt i) (IInt j) in
                  when (unset x) (assign_DOEL (IInt i) (IInt j) (Some day)))) o
             = (o', Ok tt)
             ∧ day_step day o o'
             ∧ ∀ i j, i ∈ us → j < 3 → ∃ d, cell (DOEL (states o')) i j = Some (Some d).
Proof.
  assert (py_range 0 3 = Z.of_nat <$> [0; 1; 2]) as Hjs by (by rewrite py_range_0).
  induction us as [|i us IH]; intros o Hslots.
  - exists o. split; [done|]. split; [reflexivity|]. intros i j Hi. by apply elem_of_nil in Hi.
  - destruct (backfill_row day i [0; 1; 2] o) as (o1 & Hrun1 & Hstep1 & Hset1).
    { intros j Hj. apply Hslots; [left|].
      repeat (apply elem_of_cons in Hj as [->|Hj]; [lia|]). by apply elem_of_nil in Hj. }
    destruct (IH o1) as (o' & Hrun & Hstep & Hset).
    { intros i' j Hi' Hj. eapply slot_step_is_Some; [apply Hstep1|].
      apply Hslots; [by right|done]. }
    exists o'. split; [|split].
    + rewrite fmap_cons, for_in_cons. cbv beta. rewrite Hjs, Hrun1. exact Hrun.
    + by etrans.
    + intros i' j [->|Hi']%elem_of_cons Hj; [|by apply Hset].
      eapply slot_step_set; [apply Hstep|]. apply Hset1.
      destruct j as [|[|[|j]]]; [repeat constructor..|lia].
Qed.

(** X11: in a step with both rates assigned, the tables within capacity for the
    anthesis loop, and the slots 0, 1, 2 in place for every vegetative unit
    below [int(DVS + 2)], the back-fill runs through: the step raises its
    [TypeError] at line 142, and every one of those slots holds a date
    afterwards. *)
Theorem integrate_backfills_units (day : date) (o : DVS_Phenology) (dvr : R)
    (dvrf : list (list R)) :
  DVR (rates o) = Some dvr → DVRF (rates o) = Some dvrf →
  capacity (DOEF (states o)) (DOEL (states o)) 0
           (Z.to_nat (py_int (DVS (states o) + dvr))) →
  (∀ i j, (Z.of_nat i < py_int (DVS (states o) + dvr + 2))%Z → j < 3 →
          is_Some (cell (DOEL (states o)) i j)) →
  let o' := fst (integrate day o) in
  snd (integrate day o) = Raise TypeError
  ∧ ∀ i j, (Z.of_nat i < py_int (DVS (states o) + dvr + 2))%Z → j < 3 →
           ∃ d, cell (DOEL (states o')) i j = Some (Some d).
Proof.
  intros Hr Hrf Hcap Hslots o'. subst o'.
  rewrite (integrate_assigned day o dvr dvrf) by done.
  rewrite (commit_rates_assigned o dvr dvrf) by done. simpl.
  set (o1 := mkObject _ _ _).
  pose proof (keeps_step_anthesis day o1) as [_ HL].
  pose proof (frame_anthesis day o1 _ (Nat.le_refl _)) as (HDVS & _).
  assert (anthesis day o1 = (fst (anthesis day o1), Ok tt)) as Hrun.
  { destruct (anthesis_loop day _ 0 o1 Hcap) as (F' & L' & Hrun & _).
    unfold anthesis. rewrite bind_get_states, py_range_0. simpl. by rewrite Hrun. }
  rewrite Hrun. set (o2 := fst (anthesis day o1)) in *.
  destruct (backfill_rows day (seq 0 (Z.to_nat (py_int (DVS (states o2) + 2)))) o2)
    as (o3 & Hfill & _ & Hset).
  { intros i j Hi%elem_of_seq Hj. eapply slot_step_is_Some; [apply HL|].
    simpl. apply Hslots; [|done]. rewrite HDVS in Hi. simpl in Hi. lia. }
  unfold backfill. rewrite bind_get_states, py_range_0, Hfill. simpl.
  split; [done|]. intros i j Hi Hj. apply Hset; [|done].
  apply elem_of_seq. rewrite HDVS. simpl. lia.
Qed.

Lemma integrate_backfills_units_witness :
  snd (integrate 1 o_first_truss) = Raise TypeError
  ∧ ∃ d, cell (DOEL (states (fst (integrate 1 o_first_truss)))) 2 2 = Some (Some d).
Proof.
  assert (py_int (DVS (states o_first_truss) + 0.6) = 1%Z) as Hn
    by (apply py_int_nonneg; simpl; (lia || lra)).
  assert (py_int (DVS (states o_first_truss) + 0.6 + 2) = 3%Z) as Hm
    by (apply py_int_nonneg; simpl; (lia || lra)).
  destruct (integrate_backfills_units 1 o_first_truss 0.6 [] eq_refl eq_refl) as [H1 H2].
  - rewrite Hn. intros k Hk. assert (k = 0) as -> by lia.
    exists [None; None]. split; [done|]. split; [done|]. intros _.
    by exists [None; None; None].
  - rewrite Hm. intros i j Hi Hj.
    destruct i as [|[|[|i]]]; [| | |lia]; destruct j as [|[|[|j]]]; try lia; by eexists.
  - split; [exact H1|]. apply H2; [rewrite Hm|]; lia.
Defined.

(** ** A truss over several days *)

Lemma fill_first_prefix (day : date) (pre : list date) (rest : list (option date)) :
  fill_first day ((Some <$> pre) ++ None :: rest) = (Some <$> pre) ++ Some day :: rest.
Proof. induction pre as [|p pre IH]; simpl; [done|]. f_equal. exact IH. Qed.

Lemma truss_row_prefix (day : date) (pre : list date) (rest : list (option date)) :
  truss_row day ((Some <$> pre) ++ None :: rest) = (Some <$> pre) ++ Some day :: rest.
Proof. destruct pre as [|p pre]; simpl; [done|]. f_equal. apply fill_first_prefix. Qed.

Lemma truss_row_days (days pre : list date) (k : nat) :
  length days ≤ k →
  fold_left (λ row day, truss_row day row) days ((Some <$> pre) ++ replicate k None)
  = (Some <$> pre ++ days) ++ replicate (k - length days) None.
Proof.
  revert pre k. induction days as [|day days IH]; intros pre k Hk; simpl.
  - by rewrite app_nil_r, Nat.sub_0_r.
  - destruct k as [|k]; [simpl in Hk; lia|]. simpl.
    rewrite truss_row_prefix.
    replace ((Some <$> pre) ++ Some day :: replicate k None)
      with ((Some <$> pre ++ [day]) ++ replicate k None)
      by (by rewrite fmap_app, <- app_assoc).
    rewrite IH by (simpl in Hk; lia). by rewrite <- app_assoc.
Qed.

Lemma shape_nonempty {A} (T T' : list (list A)) :
  length <$> T' = length <$> T → Forall (λ row, row ≠ []) T → Forall (λ row, row ≠ []) T'.
Proof.
  intros Hshape HT. apply Forall_lookup. intros k row' Hrow'.
  assert ((length <$> T) !! k = Some (length row')) as Hk
    by (by rewrite <- Hshape, list_lookup_fmap, Hrow').
  rewrite list_lookup_fmap in Hk. destruct (T !! k) as [row|] eqn:Hrow; [|done].
  injection Hk as Hk. pose proof (Forall_lookup_1 _ _ _ _ HT Hrow) as Hne.
  destruct row, row'; done.
Qed.

(** Over a run within sized tables, truss [i] has one day of [truss_row] per
    step. *)
Lemma run_days_truss_row (steps : list (date * RateVariables)) (i N : nat) :
  ∀ (o : DVS_Phenology) (row : list (option date)),
    N ≤ length (DOEF (states o)) → N + 3 ≤ length (DOEL (states o)) →
    Forall (λ r, r ≠ []) (DOEF (states o)) → Forall (λ r, r ≠ []) (DOEL (states o)) →
    truss_in_bloom i N (DVS (states o)) steps →
    DOEF (states o) !! i = Some row →
    DOEF (states (run_days steps o)) !! i
    = Some (fold_left (λ row day, truss_row day row) (fst <$> steps) row).
Proof.
  induction steps as [|[day r] steps IH]; intros o row HN HN3 HFne HLne Hbloom Hrow;
    [done|].
  destruct Hbloom as (dvr & Hr & [dvrf Hrf] & Hi & Hbloom). simpl.
  set (o0 := with_rates r o). set (o1 := fst (integrate day o0)).
  destruct (frame_integrate day o0) as (HDVS & _ & _ & _ & _ & SF & SL & _).
  destruct (commit_rates_frame o0) as (GF & GL & _).
  fold o1 in HDVS, SF, SL. rewrite commit_rates_DVS in HDVS. rewrite GF in SF. rewrite GL in SL.
  simpl in HDVS, SF, SL. rewrite Hr in HDVS. simpl in HDVS.
  destruct (integrate_dates day o0 dvr dvrf Hr Hrf) as [HF _].
  { apply capacity_sized; simpl; [lia|lia|done|done]. }
  fold o1 in HF. simpl in HF.
  apply IH.
  - rewrite <- (length_fmap length), SF, length_fmap. done.
  - rewrite <- (length_fmap length), SL, length_fmap. done.
  - by apply (shape_nonempty (DOEF (states o))).
  - by apply (shape_nonempty (DOEL (states o))).
  - by rewrite HDVS.
  - rewrite HF, decide_True by lia. by rewrite Hrow.
Qed.

(** X12: a truss of [m] flowers, none open, that stays below [int(DVS)] over a
    run of at most [m] steps with assigned rates and tables sized for
    [int(DVS)] trusses, opens one flower a day: after the run its first slots
    hold the days of the steps in order and the others are still unset. *)
Theorem truss_blooms_day_by_day (steps : list (date * RateVariables))
    (o : DVS_Phenology) (i N m : nat) :
  N ≤ length (DOEF (states o)) → N + 3 ≤ length (DOEL (states o)) →
  Forall (λ r, r ≠ []) (DOEF (states o)) → Forall (λ r, r ≠ []) (DOEL (states o)) →
  truss_in_bloom i N (DVS (states o)) steps →
  DOEF (states o) !! i = Some (replicate m None) →
  length steps ≤ m →
  DOEF (states (run_days steps o)) !! i
  = Some ((Some <$> (fst <$> steps)) ++ replicate (m - length steps) None).
Proof.
  intros HN HN3 HFne HLne Hbloom Hrow Hm.
  rewrite (run_days_truss_row steps i N o (replicate m None)) by done.
  f_equal. rewrite (truss_row_days (fst <$> steps) [] m) by (by rewrite length_fmap).
  by rewrite length_fmap.
Qed.

Lemma truss_blooms_day_by_day_witness :
  let r := mkRates (Some 0.6%R) (Some []) in
  DOEF (states (run_days [(1%Z, r); (2%Z, r)] o_first_truss)) !! 0
  = Some [Some 1%Z; Some 2%Z].
Proof.
  intros r.
  apply (truss_blooms_day_by_day [(1%Z, r); (2%Z, r)] o_first_truss 0 1 2).
  - simpl. lia.
  - simpl. lia.
  - by repeat constructor.
  - by repeat constructor.
  - simpl. exists 0.6%R. split; [done|]. split; [by eexists|]. split.
    { rewrite (py_int_nonneg _ 1); lia || lra. }
    exists 0.6%R. split; [done|]. split; [by eexists|]. split; [|done].
    rewrite (py_int_nonneg _ 1); lia || lra.
  - done.
  - simpl. lia.
Defined.

(** * Maintenance respiration *)

Lemma float_pow_positive (x y : R) :
  (0 < x)%R → Respiration.float_pow x y = Respiration.Done (Respiration.Real (Rpower x y)).
Proof. intros Hx. unfold Respiration.float_pow. by destruct (Rlt_dec 0 x). Qed.

Lemma float_pow_error (x y : R) (e : Respiration.error) :
  Respiration.float_pow x y = Respiration.Fail e → e = Respiration.ZeroDivisionError.
Proof.
  unfold Respiration.float_pow.
  repeat match goal with |- context [if ?c then _ else _] => destruct c end;
    congruence.
Qed.

Lemma sum_from (l : list R) (a : R) : fold_left Rplus l a = (a + Respiration.sum l)%R.
Proof.
  unfold Respiration.sum. revert a. induction l as [|x l IH]; intros a; simpl; [lra|].
  rewrite (IH (a + x)%R), (IH (0 + x)%R). lra.
Qed.

Lemma sum_nonneg (l : list R) : Forall (λ x, 0 <= x)%R l → (0 <= Respiration.sum l)%R.
Proof.
  induction 1 as [|x l Hx Hl IH]; unfold Respiration.sum; simpl; [lra|].
  rewrite sum_from. lra.
Qed.

Lemma mean_nonneg (l : list R) (m : R) :
  Forall (λ x, 0 <= x)%R l → Respiration.mean l = Respiration.Done m → (0 <= m)%R.
Proof.
  intros Hl. destruct l as [|x l]; [done|]. unfold Respiration.mean. intros [= <-].
  apply Rmult_le_pos; [by apply sum_nonneg|].
  apply Rlt_le, Rinv_0_lt_compat. change (0 < INR (S (length l)))%R. apply lt_0_INR. lia.
Qed.

Lemma exp_nonpos_le_1 (x : R) : (x <= 0)%R → (0 < exp x <= 1)%R.
Proof.
  intros Hx. split; [apply exp_pos|]. destruct Hx as [Hx| ->]; [|rewrite exp_0; lra].
  rewrite <- exp_0. by apply Rlt_le, exp_increasing.
Qed.

(** X13: when one of the weights [WRT], [WLV], [WST], [WSO] is not in the
    kiosk, the call raises [KeyError] and leaves the rate variables as they
    were. *)
Theorem respiration_missing_weight (day : date) (drvTEMP : R)
    (self : Respiration.TOMGROSIM_Maintenance_Respiration) :
  (∃ key, key ∈ ["WRT"; "WLV"; "WST"; "WSO"]
          ∧ Respiration.items (Respiration.kiosk self) !! key = None) →
  Respiration.__call__ day drvTEMP self = (self, Respiration.Fail Respiration.KeyError).
Proof.
  intros (key & Hkey & Hmissing).
  unfold Respiration.__call__, Respiration.factors, Respiration.getitem,
    Respiration.obind.
  repeat (apply elem_of_cons in Hkey as [->|Hkey];
          [rewrite Hmissing;
           repeat match goal with
                  | |- context [Respiration.items ?kk !! ?k] =>
                      destruct (Respiration.items kk !! k)
                  end; done|]).
  by apply elem_of_nil in Hkey.
Qed.

Lemma respiration_missing_weight_witness :
  let self := resp_with (Respiration.params resp_sample)
                        (Respiration.mkKiosk (<["WRT" := 1%R]> ∅) [0.1%R]) resp_sample in
  Respiration.__call__ 1 20 self = (self, Respiration.Fail Respiration.KeyError).
Proof.
  intros self. apply respiration_missing_weight.
  exists "WLV". split; [repeat constructor|done].
Defined.

Lemma factors_present (p : Respiration.Parameters) (kk : Respiration.VariableKiosk)
    (T wrt wlv wst wso : R) :
  Respiration.items kk !! "WRT" = Some wrt → Respiration.items kk !! "WLV" = Some wlv →
  Respiration.items kk !! "WST" = Some wst → Respiration.items kk !! "WSO" = Some wso →
  Respiration.factors p kk T
  = Respiration.obind (Respiration.float_pow (Respiration.Q10 p) ((T - 25) / 10))
      (λ TEFF, Respiration.obind (Respiration.mean (take 7 (Respiration.RGRL kk)))
         (λ rgr, Respiration.Done
                   ((Respiration.RMR p * wrt + Respiration.RML p * wlv
                     + Respiration.RMS p * wst + Respiration.RMO p * wso)%R, TEFF, rgr))).
Proof.
  intros H1 H2 H3 H4. unfold Respiration.factors, Respiration.getitem.
  by rewrite H1, H2, H3, H4.
Qed.

(** X14: with the four weights in the kiosk and an empty [RGRL], the call
    raises [ZeroDivisionError], whatever the parameters and the temperature,
    and leaves the rate variables as they were. *)
Theorem respiration_empty_RGRL (day : date) (drvTEMP : R)
    (self : Respiration.TOMGROSIM_Maintenance_Respiration) (wrt wlv wst wso : R) :
  Respiration.items (Respiration.kiosk self) !! "WRT" = Some wrt →
  Respiration.items (Respiration.kiosk self) !! "WLV" = Some wlv →
  Respiration.items (Respiration.kiosk self) !! "WST" = Some wst →
  Respiration.items (Respiration.kiosk self) !! "WSO" = Some wso →
  Respiration.RGRL (Respiration.kiosk self) = [] →
  Respiration.__call__ day drvTEMP self
  = (self, Respiration.Fail Respiration.ZeroDivisionError).
Proof.
  intros H1 H2 H3 H4 Hempty. unfold Respiration.__call__.
  rewrite (factors_present _ _ _ wrt wlv wst wso) by done. rewrite Hempty. simpl.
  destruct (Respiration.float_pow _ _) as [TEFF|e] eqn:Hpow; simpl; [done|].
  by rewrite (float_pow_error _ _ _ Hpow).
Qed.

Lemma respiration_empty_RGRL_witness :
  let self := resp_with (Respiration.params resp_sample)
                (Respiration.mkKiosk (Respiration.items (Respiration.kiosk resp_sample)) [])
                resp_sample in
  Respiration.__call__ 1 20 self = (self, Respiration.Fail Respiration.ZeroDivisionError).
Proof.
  intros self. by apply (respiration_empty_RGRL 1 20 self 1 2 3 4).
Defined.

(** X15: the call reads the first seven entries of [RGRL] only: entries added
    behind a list of seven or more change neither what it returns nor the
    rate variables it leaves. *)
Theorem respiration_first_seven (day : date) (drvTEMP : R)
    (self : Respiration.TOMGROSIM_Maintenance_Respiration) (older : list R) :
  7 ≤ length (Respiration.RGRL (Respiration.kiosk self)) →
  let kk := Respiration.kiosk self in
  let self' := resp_with (Respiration.params self)
                 (Respiration.mkKiosk (Respiration.items kk) (Respiration.RGRL kk ++ older))
                 self in
  snd (Respiration.__call__ day drvTEMP self') = snd (Respiration.__call__ day drvTEMP self)
  ∧ Respiration.rates (fst (Respiration.__call__ day drvTEMP self'))
    = Respiration.rates (fst (Respiration.__call__ day drvTEMP self)).
Proof.
  intros Hlen kk self'. subst kk self'.
  unfold Respiration.__call__, Respiration.factors, Respiration.getitem, resp_with. simpl.
  rewrite take_app_le by done.
  destruct (Respiration.obind _ _) as [[[RMRES [teff|]] rgr]|e]; done.
Qed.

Lemma respiration_first_seven_witness :
  let l := [1; 2; 3; 4; 5; 6; 7]%R in
  let self := resp_with (Respiration.params resp_sample)
                (Respiration.mkKiosk (Respiration.items (Respiration.kiosk resp_sample)) l)
                resp_sample in
  let self' := resp_with (Respiration.params resp_sample)
                 (Respiration.mkKiosk (Respiration.items (Respiration.kiosk resp_sample))
                    (l ++ [100; 200]%R))
                 resp_sample in
  snd (Respiration.__call__ 1 20 self') = snd (Respiration.__call__ 1 20 self).
Proof.
  intros l self self'.
  destruct (respiration_first_seven 1 20 self [100; 200]%R) as [H _]; [simpl; lia|].
  exact H.
Defined.

(** The call when everything is in place: positive [Q10], the four weights,
    a growth rate on record. *)
Lemma respiration_call_positive (day : date) (drvTEMP : R)
    (self : Respiration.TOMGROSIM_Maintenance_Respiration) (wrt wlv wst wso rgr : R) :
  let p := Respiration.params self in
  let kk := Respiration.kiosk self in
  (0 < Respiration.Q10 p)%R →
  Respiration.items kk !! "WRT" = Some wrt → Respiration.items kk !! "WLV" = Some wlv →
  Respiration.items kk !! "WST" = Some wst → Respiration.items kk !! "WSO" = Some wso →
  Respiration.mean (take 7 (Respiration.RGRL kk)) = Respiration.Done rgr →
  let pmres := ((Respiration.RMR p * wrt + Respiration.RML p * wlv
                 + Respiration.RMS p * wst + Respiration.RMO p * wso)
                * Rpower (Respiration.Q10 p) ((drvTEMP - 25) / 10)
                * (1 - exp (- Respiration.COEFRGR p * rgr)))%R in
  Respiration.__call__ day drvTEMP self
  = (Respiration.mkObject p (Respiration.mkRates pmres rgr) kk, Respiration.Done pmres).
Proof.
  intros p kk HQ H1 H2 H3 H4 Hmean pmres. unfold Respiration.__call__.
  fold p kk. rewrite (factors_present _ _ _ wrt wlv wst wso) by done.
  rewrite float_pow_positive by done. simpl. by rewrite Hmean.
Qed.

(** X16: with a positive [Q10], non-negative coefficients and weights, a
    non-negative [COEFRGR] and non-negative growth rates among the first
    seven on record, the call returns a value between 0 and the respiration
    at that temperature without the growth correction, and stores that value
    in [PMRES]. *)
Theorem respiration_bounds (day : date) (drvTEMP : R)
    (self : Respiration.TOMGROSIM_Maintenance_Respiration) (wrt wlv wst wso : R) :
  let p := Respiration.params self in
  let kk := Respiration.kiosk self in
  (0 < Respiration.Q10 p)%R →
  (0 <= Respiration.RMR p)%R → (0 <= Respiration.RML p)%R →
  (0 <= Respiration.RMS p)%R → (0 <= Respiration.RMO p)%R →
  (0 <= Respiration.COEFRGR p)%R →
  Respiration.items kk !! "WRT" = Some wrt → Respiration.items kk !! "WLV" = Some wlv →
  Respiration.items kk !! "WST" = Some wst → Respiration.items kk !! "WSO" = Some wso →
  (0 <= wrt)%R → (0 <= wlv)%R → (0 <= wst)%R → (0 <= wso)%R →
  Respiration.RGRL kk ≠ [] →
  Forall (λ x, 0 <= x)%R (take 7 (Respiration.RGRL kk)) →
  ∃ v, Respiration.__call__ day drvTEMP self
       = (Respiration.mkObject p
            (Respiration.mkRates v (Respiration.sum (take 7 (Respiration.RGRL kk))
                                    / INR (length (take 7 (Respiration.RGRL kk)))))
            kk,
          Respiration.Done v)
       ∧ (0 <= v <= (Respiration.RMR p * wrt + Respiration.RML p * wlv
                     + Respiration.RMS p * wst + Respiration.RMO p * wso)
                    * Rpower (Respiration.Q10 p) ((drvTEMP - 25) / 10))%R.
Proof.
  intros p kk. subst p kk.
  intros HQ Hr Hl Hs Ho Hc H1 H2 H3 H4 Hwrt Hwlv Hwst Hwso Hne Hpos.
  set (p := Respiration.params self) in *. set (kk := Respiration.kiosk self) in *.
  set (l := take 7 (Respiration.RGRL kk)) in *.
  assert (Respiration.mean l = Respiration.Done (Respiration.sum l / INR (length l))%R)
    as Hmean.
  { subst l. destruct (Respiration.RGRL kk); done. }
  eexists. split.
  { by apply (respiration_call_positive day drvTEMP self wrt wlv wst wso). }
  fold p kk l.
  pose proof (mean_nonneg l _ Hpos Hmean) as Hrgr.
  set (rgr := (Respiration.sum l / INR (length l))%R) in *.
  set (RMRES := (Respiration.RMR p * wrt + Respiration.RML p * wlv
                 + Respiration.RMS p * wst + Respiration.RMO p * wso)%R).
  assert (0 <= RMRES)%R as HRM.
  { subst RMRES. repeat apply Rplus_le_le_0_compat; by apply Rmult_le_pos. }
  assert (0 < Rpower (Respiration.Q10 p) ((drvTEMP - 25) / 10))%R as HT
    by (unfold Rpower; apply exp_pos).
  destruct (exp_nonpos_le_1 (- Respiration.COEFRGR p * rgr)) as [He0 He1].
  { assert (0 <= Respiration.COEFRGR p * rgr)%R by (by apply Rmult_le_pos). lra. }
  assert (0 <= RMRES * Rpower (Respiration.Q10 p) ((drvTEMP - 25) / 10))%R as HRT
    by (apply Rmult_le_pos; lra).
  split.
  - apply Rmult_le_pos; [done|lra].
  - rewrite <- (Rmult_1_r (RMRES * _)) at 2. apply Rmult_le_compat_l; [done|lra].
Qed.

Lemma respiration_bounds_witness :
  ∃ v, snd (Respiration.__call__ 1 20 resp_sample) = Respiration.Done v
       ∧ (0 <= v)%R.
Proof.
  destruct (respiration_bounds 1 20 resp_sample 1 2 3 4) as (v & Hcall & Hv & _);
    simpl; try done; try lra.
  - repeat constructor; lra.
  - exists v. rewrite Hcall. by split.
Defined.

(** X17: with a positive [Q10], ten degrees more multiply the result by [Q10],
    and at 25 degrees the temperature factor is 1. *)
Theorem respiration_Q10_rule (day : date) (drvTEMP : R)
    (self : Respiration.TOMGROSIM_Maintenance_Respiration) (wrt wlv wst wso rgr : R) :
  let p := Respiration.params self in
  let kk := Respiration.kiosk self in
  (0 < Respiration.Q10 p)%R →
  Respiration.items kk !! "WRT" = Some wrt → Respiration.items kk !! "WLV" = Some wlv →
  Respiration.items kk !! "WST" = Some wst → Respiration.items kk !! "WSO" = Some wso →
  Respiration.mean (take 7 (Respiration.RGRL kk)) = Respiration.Done rgr →
  ∃ v, snd (Respiration.__call__ day drvTEMP self) = Respiration.Done v
       ∧ snd (Respiration.__call__ day (drvTEMP + 10) self)
         = Respiration.Done (Respiration.Q10 p * v)%R
       ∧ snd (Respiration.__call__ day 25 self)
         = Respiration.Done ((Respiration.RMR p * wrt + Respiration.RML p * wlv
                              + Respiration.RMS p * wst + Respiration.RMO p * wso)
                             * (1 - exp (- Respiration.COEFRGR p * rgr)))%R.
Proof.
  intros p kk HQ H1 H2 H3 H4 Hmean.
  rewrite !(respiration_call_positive day _ self wrt wlv wst wso rgr) by done.
  fold p kk. simpl. eexists. split; [done|]. split; f_equal.
  - replace ((drvTEMP + 10 - 25) / 10)%R with ((drvTEMP - 25) / 10 + 1)%R by lra.
    rewrite Rpower_plus, Rpower_1 by done. lra.
  - replace ((25 - 25) / 10)%R with 0%R by lra. rewrite Rpower_O by done. lra.
Qed.

Lemma respiration_Q10_rule_witness :
  ∃ v, snd (Respiration.__call__ 1 15 resp_sample) = Respiration.Done v
       ∧ snd (Respiration.__call__ 1 (15 + 10) resp_sample) = Respiration.Done (2 * v)%R.
Proof.
  destruct (respiration_Q10_rule 1 15 resp_sample 1 2 3 4 ((0 + 0.1 + 0.2) / INR 2))
    as (v & H1 & H2 & _); simpl; try done; try lra.
  exists v. by split.
Defined.

(** X18: with [Q10] equal to 0 and a temperature below 25, the four weights
    being in the kiosk, the power of line 43 raises [ZeroDivisionError] and
    the rate variables are as they were. *)
Theorem respiration_zero_Q10 (day : date) (drvTEMP : R)
    (self : Respiration.TOMGROSIM_Maintenance_Respiration) (wrt wlv wst wso : R) :
  let kk := Respiration.kiosk self in
  Respiration.Q10 (Respiration.params self) = 0%R → (drvTEMP < 25)%R →
  Respiration.items kk !! "WRT" = Some wrt → Respiration.items kk !! "WLV" = Some wlv →
  Respiration.items kk !! "WST" = Some wst → Respiration.items kk !! "WSO" = Some wso →
  Respiration.__call__ day drvTEMP self
  = (self, Respiration.Fail Respiration.ZeroDivisionError).
Proof.
  intros kk HQ HT H1 H2 H3 H4. unfold Respiration.__call__.
  rewrite (factors_present _ _ _ wrt wlv wst wso) by done.
  rewrite HQ. unfold Respiration.float_pow.
  destruct (Rlt_dec 0 0) as [?|_]; [lra|].
  destruct (Req_dec_T 0 0) as [_|?]; [|done].
  destruct (Rlt_dec 0 ((drvTEMP - 25) / 10)) as [?|_]; [lra|].
  destruct (Req_dec_T ((drvTEMP - 25) / 10) 0) as [?|_]; [lra|]. done.
Qed.

Lemma respiration_zero_Q10_witness :
  let self := resp_with (Respiration.mkParameters 0 0.01 0.03 0.015 0.01 [] 33)
                        (Respiration.kiosk resp_sample) resp_sample in
  Respiration.__call__ 1 20 self = (self, Respiration.Fail Respiration.ZeroDivisionError).
Proof.
  intros self. apply (respiration_zero_Q10 1 20 self 1 2 3 4); simpl; done || lra.
Defined.

(** * The rate helpers on their own *)

(** X19: called with two arguments and a positive temperature, the plant helper
    gives a rate that grows with the temperature and falls with the stage. *)
Theorem dev_rate_plant_monotone (T1 T2 dvs1 dvs2 : R) :
  (0 < T1 < T2)%R → (dvs1 < dvs2)%R →
  ∃ r11 r21 r12,
    _dev_rate_plant T1 dvs1 = Ok r11
    ∧ _dev_rate_plant T2 dvs1 = Ok r21
    ∧ _dev_rate_plant T1 dvs2 = Ok r12
    ∧ (r11 < r21)%R ∧ (r12 < r11)%R.
Proof.
  intros [HT1 HT12] Hdvs. unfold _dev_rate_plant.
  rewrite !math_log_pos by lra. simpl.
  do 3 eexists. repeat split.
  - pose proof (ln_increasing T1 T2 HT1 HT12). lra.
  - lra.
Qed.

Lemma dev_rate_plant_monotone_witness :
  ∃ r1 r2, _dev_rate_plant 17 3 = Ok r1 ∧ _dev_rate_plant 27 3 = Ok r2 ∧ (r1 < r2)%R.
Proof.
  destruct (dev_rate_plant_monotone 17 27 3 4) as (r11 & r21 & _ & H1 & H2 & _ & Hlt & _);
    [lra|lra|].
  exists r11, r21. by repeat split.
Defined.

(** X20: called with two arguments, the fruit helper gives 0.0181 at 20
    degrees whatever the stage of the fruit, and raises the domain error of
    the logarithm at a temperature that is not positive. *)
Theorem dev_rate_fruit_reference (T x : R) :
  _dev_rate_fruit 20 x = Ok 0.0181%R
  ∧ ((T <= 0)%R → _dev_rate_fruit T x = Raise ValueError).
Proof.
  split.
  - rewrite dev_rate_fruit_closed_form by lra. f_equal.
    replace (20 / 20)%R with 1%R by lra. rewrite ln_1. lra.
  - intros HT. unfold _dev_rate_fruit. rewrite math_log_nonpos; [done|lra].
Qed.
